(** * hierarchical_rl: the Q-network estimators and the state adapters

    A shallow embedding of [scripts/qnetwork.py] and
    [scripts/state_adapters.py].

    Conventions of the embedding.
    - Python integers are [Z]; [int32] arrays are lists of [Z] whose
      entries are wrapped into the 32-bit range where the code casts them.
    - Finite [floatX] numbers are exact rationals [Q], compared with
      [==]; rounding is not modelled.  Where a statement depends on the
      special values of IEEE 754, the values are of the type [floatX],
      which adds the infinities and NaN to the rationals.
    - A Python exception is a value of [PyExn]; a method of an object is a
      computation in the monad [M], which threads the object and keeps the
      object as it stands at the moment an exception is raised.
    - The tensor engine (Theano and Lasagne: forward pass, update rules,
      weight sampling) is not part of the repository; it is the record
      [Engine], over which every definition and theorem is parametric.
      Its forward pass and its update rules can raise.
    - The builders describe the layers and arrays of a network whose
      dimensions Lasagne and numpy accept; statements about a
      constructor call assume such dimensions ([constructible]). *)

From Stdlib Require Import ZArith QArith Qabs Qminmax List String Bool Lia Lqa.
Import ListNotations.

Local Open Scope Z_scope.

(* ================================================================== *)
(** * Python values, exceptions and the object monad                   *)
(* ================================================================== *)

Inductive PyExn : Type :=
| ValueError
| IndexError
| ZeroDivisionError
| AttributeError.

Inductive Result (A : Type) : Type :=
| Ok (a : A)
| Raise (e : PyExn).

Arguments Ok {A} a.
Arguments Raise {A} e.

Definition is_ok {A} (r : Result A) : bool :=
  match r with Ok _ => true | Raise _ => false end.

Definition rbind {A B} (r : Result A) (k : A -> Result B) : Result B :=
  match r with
  | Ok a => k a
  | Raise e => Raise e
  end.

(** [M S A]: a method body running on an object of type [S]. *)
Definition M (S A : Type) : Type := S -> Result A * S.

Definition ret {S A} (a : A) : M S A := fun s => (Ok a, s).

Definition bind {S A B} (m : M S A) (k : A -> M S B) : M S B :=
  fun s =>
    match m s with
    | (Ok a, s') => k a s'
    | (Raise e, s') => (Raise e, s')
    end.

Definition raise {S A} (e : PyExn) : M S A := fun s => (Raise e, s).

Definition lift {S A} (r : Result A) : M S A := fun s => (r, s).

Definition get {S} : M S S := fun s => (Ok s, s).

Definition modify {S} (f : S -> S) : M S unit := fun s => (Ok tt, f s).

Declare Scope py_scope.
Delimit Scope py_scope with py.
Notation "x <- m ;; k" := (bind m (fun x => k))
  (at level 61, m at next level, right associativity) : py_scope.
Notation "m ;;; k" := (bind m (fun _ => k))
  (at level 61, right associativity) : py_scope.

(** Python's [a % b] on integers: the sign follows the divisor, as for
    [Z.modulo]; a zero divisor raises. *)
Definition py_mod (a b : Z) : Result Z :=
  if b =? 0 then Raise ZeroDivisionError else Ok (a mod b).

(** [ndarray.astype('int32')] on an integer. *)
Definition astype_int32 (z : Z) : Z :=
  (z + 2147483648) mod 4294967296 - 2147483648.

(** Index normalisation of numpy: [-len <= i < 0] counts from the end. *)
Definition np_index (len i : Z) : Result nat :=
  if (0 <=? i) && (i <? len) then Ok (Z.to_nat i)
  else if (- len <=? i) && (i <? 0) then Ok (Z.to_nat (len + i))
  else Raise IndexError.

Definition zlength {A} (l : list A) : Z := Z.of_nat (List.length l).

(** [np.zeros(n)] for a one-dimensional shape. *)
Definition np_zeros (n : Z) : Result (list Q) :=
  if n <? 0 then Raise ValueError else Ok (repeat 0%Q (Z.to_nat n)).

Fixpoint set_nth {A} (l : list A) (n : nat) (v : A) : list A :=
  match l, n with
  | [], _ => []
  | _ :: t, O => v :: t
  | h :: t, S n' => h :: set_nth t n' v
  end.

(** [a[i] = v] on a one-dimensional array. *)
Definition np_setitem (a : list Q) (i : Z) (v : Q) : Result (list Q) :=
  rbind (np_index (zlength a) i) (fun n => Ok (set_nth a n v)).

(* ================================================================== *)
(** * state_adapters.py                                                *)
(* ================================================================== *)

Module CoordinatesToSingleRoomRowColAdapter.

Record t : Type := { room_size : Z }.

Definition init (room_size : Z) : t := {| room_size := room_size |}.

(** [convert_state_to_agent_format(self, state)] *)
Definition convert_state_to_agent_format (self : t) (state : Z * Z)
  : Result (list Q) :=
  let '(ridx, cidx) := state in
  rbind (np_zeros (room_size self)) (fun row =>
  rbind (py_mod ridx (room_size self)) (fun r =>
  rbind (np_setitem row r 1%Q) (fun row =>
  rbind (np_zeros (room_size self)) (fun col =>
  rbind (py_mod cidx (room_size self)) (fun c =>
  rbind (np_setitem col c 1%Q) (fun col =>
  Ok (row ++ col))))))).

End CoordinatesToSingleRoomRowColAdapter.

Module CoordinateTosRowColAdapter.

Record t : Type := { room_size : Z; num_rooms : Z }.

Definition init (room_size num_rooms : Z) : t :=
  {| room_size := room_size; num_rooms := num_rooms |}.

Definition convert_state_to_agent_format (self : t) (state : Z * Z)
  : Result (list Q) :=
  let '(ridx, cidx) := state in
  rbind (np_zeros (room_size self * num_rooms self)) (fun row =>
  rbind (np_setitem row ridx 1%Q) (fun row =>
  rbind (np_zeros (room_size self * num_rooms self)) (fun col =>
  rbind (np_setitem col cidx 1%Q) (fun col =>
  Ok (row ++ col))))).

End CoordinateTosRowColAdapter.

(** The one-hot vector of length [n] with its 1 at index [i]. *)
Definition one_hot (n i : nat) : list Q :=
  map (fun j => if Nat.eqb j i then 1%Q else 0%Q) (seq 0 n).

(* ================================================================== *)
(** * Arrays, layers and the tensor engine                             *)
(* ================================================================== *)

(** A numpy array: its shape and its entries in row-major order. *)
Record Array : Type := { shape : list Z; data : list Q }.

Definition prod_shape (s : list Z) : Z := fold_right Z.mul 1 s.

Definition shape_eqb (s1 s2 : list Z) : bool :=
  if list_eq_dec Z.eq_dec s1 s2 then true else false.

(** [range(n)] *)
Definition py_range (n : Z) : list Z := map Z.of_nat (seq 0 (Z.to_nat n)).

Inductive Nonlinearity : Type := leaky_rectify.

Inductive Init : Type :=
| HeNormal
| Constant (c : Q).

Inductive Pad : Type := pad_same.

(** The layer objects of Lasagne that the builders construct; [incoming]
    is the layer a layer reads its input from. *)
Inductive Layer : Type :=
| InputLayer (shape : list Z)
| DenseLayer (incoming : Layer) (num_units : Z)
    (nonlinearity : option Nonlinearity) (W b : Init)
| Conv2DLayer (incoming : Layer) (num_filters : Z) (filter_size : Z * Z)
    (stride : Z) (pad : Pad) (nonlinearity : option Nonlinearity) (W b : Init).

Definition input_layer (l : Layer) : option Layer :=
  match l with
  | InputLayer _ => None
  | DenseLayer inc _ _ _ _ => Some inc
  | Conv2DLayer inc _ _ _ _ _ _ _ => Some inc
  end.

Fixpoint output_shape (l : Layer) : list Z :=
  match l with
  | InputLayer s => s
  | DenseLayer inc n _ _ _ => [hd 0 (output_shape inc); n]
  | Conv2DLayer inc n _ s _ _ _ _ =>
      match output_shape inc with
      | bsz :: _ :: dims => bsz :: n :: map (fun d => (d + s - 1) / s) dims
      | sh => sh
      end
  end.

(** A parameter of a layer: its shape, how it is initialised, and the
    [regularizable] tag ([W] carries it, [b] does not). *)
Record ParamSpec : Type :=
  { p_shape : list Z; p_init : Init; regularizable : bool }.

Definition layer_params (l : Layer) : list ParamSpec :=
  match l with
  | InputLayer _ => []
  | DenseLayer inc n _ W b =>
      [ {| p_shape := [prod_shape (tl (output_shape inc)); n];
           p_init := W; regularizable := true |};
        {| p_shape := [n]; p_init := b; regularizable := false |} ]
  | Conv2DLayer inc n (fh, fw) _ _ _ W b =>
      [ {| p_shape := [n; hd 0 (tl (output_shape inc)); fh; fw];
           p_init := W; regularizable := true |};
        {| p_shape := [n]; p_init := b; regularizable := false |} ]
  end.

(** [lasagne.layers.get_all_params]: the parameters of every layer below
    [l], the input side first. *)
Fixpoint get_all_params (l : Layer) : list ParamSpec :=
  match l with
  | InputLayer _ => []
  | DenseLayer inc _ _ _ _ => get_all_params inc ++ layer_params l
  | Conv2DLayer inc _ _ _ _ _ _ _ => get_all_params inc ++ layer_params l
  end.

(** The symbolic loss as the update rules see it: a function of the
    values of the parameters it is differentiated against. *)
Definition Loss : Type := list Array -> Result Q.

(** The interface of Theano and Lasagne that the estimators rely on. *)
Record Engine : Type := {
  Rng : Type;
  OptState : Type;
(** [lasagne.init.HeNormal().sample(shape)] *)
  he_normal : Rng -> list Z -> list Q * Rng;
(** [lasagne.layers.get_output], evaluated on a batch of inputs *)
  get_output : Layer -> list Array -> list (list Q) -> Result (list (list Q));
(** accumulators of an update rule when the rule is created *)
  opt_init : OptState;
(** [lasagne.updates.*]: the new parameter values and accumulators, as
    the compiled function computes them from the gradient of the loss;
    that computation can raise like any other part of the graph *)
  adam : Loss -> Q -> list Array -> OptState ->
         Result (list Array * OptState);
  rmsprop : Loss -> Q -> list Array -> OptState ->
            Result (list Array * OptState);
  sgd : Loss -> Q -> list Array -> OptState ->
        Result (list Array * OptState);
  apply_nesterov_momentum :
    (list Array -> OptState -> Result (list Array * OptState)) ->
    list Array -> OptState -> Result (list Array * OptState)
}.

Definition Updates (E : Engine) : Type :=
  list Array -> OptState E -> Result (list Array * OptState E).

(** A network under construction: the output layer and the values of
    [get_all_params] of it, in that order. *)
Definition Net : Type := (Layer * list Array)%type.

Section Builders.

Variable E : Engine.

(** [init.sample(shape)] for the two initialisers in use, on a shape
    of dimensions that numpy accepts. *)
Definition sample (i : Init) (sh : list Z) (rng : Rng E) : Array * Rng E :=
  match i with
  | HeNormal =>
      let '(d, rng') := he_normal E rng sh in
      ({| shape := sh; data := d |}, rng')
  | Constant c =>
      ({| shape := sh; data := repeat c (Z.to_nat (prod_shape sh)) |}, rng)
  end.

Fixpoint sample_all (ps : list ParamSpec) (rng : Rng E)
  : list Array * Rng E :=
  match ps with
  | [] => ([], rng)
  | p :: ps' =>
      let '(a, rng1) := sample (p_init p) (p_shape p) rng in
      let '(r, rng2) := sample_all ps' rng1 in
      (a :: r, rng2)
  end.

(** Constructing a layer on top of [inc] creates its parameters. *)
Definition new_layer (inc : Net) (mk : Layer -> Layer) (rng : Rng E)
  : Net * Rng E :=
  let l := mk (fst inc) in
  let '(vals, rng') := sample_all (layer_params l) rng in
  ((l, snd inc ++ vals), rng').

(** The [for hidden_idx in range(self.num_hidden_layers)] loop of
      [QNetwork.build_network], run over the indices [idxs]: every pass
      rebinds [l_hid] to a new dense layer constructed on [l_in]. *)
Definition hidden_loop (num_hidden : Z) (l_in : Net) (idxs : list Z)
    (st : Net * Rng E) : Net * Rng E :=
  fold_left
    (fun (st : Net * Rng E) (hidden_idx : Z) =>
       new_layer l_in
         (fun inc => DenseLayer inc num_hidden (Some leaky_rectify)
                       HeNormal (Constant (1 # 10)))
         (snd st))
    idxs st.

(** [QNetwork.build_network(self, input_shape, output_shape, batch_size)] *)
Definition build_network (num_hidden_layers num_hidden : Z)
    (input_shape output_shape batch_size : Z) (rng : Rng E)
  : Net * Rng E :=
  let l_in : Net := (InputLayer [batch_size; input_shape], []) in
  let '(l_hid, rng1) :=
    hidden_loop num_hidden l_in (py_range num_hidden_layers) (l_in, rng) in
  new_layer l_hid
    (fun inc => DenseLayer inc output_shape None HeNormal (Constant 0))
    rng1.

(** [ConvQNetwork.build_network(self, input_shape, output_shape, batch_size)] *)
Definition conv_build_network (num_hidden : Z)
    (input_shape : list Z) (output_shape batch_size : Z) (rng : Rng E)
  : Net * Rng E :=
  let l_in : Net := (InputLayer (batch_size :: 1 :: input_shape), []) in
  let '(l_conv1, rng1) :=
    new_layer l_in
      (fun inc => Conv2DLayer inc num_hidden (1, 1) 1 pad_same
                    (Some leaky_rectify) HeNormal (Constant (1 # 10)))
      rng in
  new_layer l_conv1
    (fun inc => DenseLayer inc output_shape None HeNormal (Constant 0))
    rng1.

End Builders.


(* ================================================================== *)
(** * The symbolic loss of [initialize_network], step 4                *)
(* ================================================================== *)

Local Open Scope Q_scope.

Fixpoint mapM {A B} (f : A -> Result B) (l : list A) : Result (list B) :=
  match l with
  | [] => Ok []
  | a :: l' =>
      rbind (f a) (fun b => rbind (mapM f l') (fun bs => Ok (b :: bs)))
  end.

(** An elementwise operation of Theano on two columns: the row axis is
    not broadcastable, so the two lengths must agree. *)
Fixpoint elemwise {A B C} (f : A -> B -> C) (la : list A) (lb : list B)
  : Result (list C) :=
  match la, lb with
  | [], [] => Ok []
  | a :: la', b :: lb' =>
      rbind (elemwise f la' lb') (fun r => Ok (f a b :: r))
  | _, _ => Raise ValueError
  end.

(** [T.max(row)]: the maximum of a non-empty row. *)
Definition T_max (row : list Q) : Result Q :=
  match row with
  | [] => Raise ValueError
  | x :: xs => Ok (fold_left Qmax xs x)
  end.

Definition T_sum (l : list Q) : Q := fold_right Qplus 0 l.

Definition T_mean (l : list Q) : Q := T_sum l / inject_Z (zlength l).

(** [a[i]] with numpy's index normalisation. *)
Definition np_get {A} (a : list A) (i : Z) : Result A :=
  rbind (np_index (zlength a) i) (fun n =>
    match nth_error a n with
    | Some x => Ok x
    | None => Raise IndexError
    end).

(** Broadcasting of two one-dimensional index arrays. *)
Definition broadcast_index (rows cols : list Z) : Result (list (Z * Z)) :=
  if Nat.eqb (List.length rows) (List.length cols) then Ok (combine rows cols)
  else match rows, cols with
       | [r], _ => Ok (map (fun c => (r, c)) cols)
       | _, [c] => Ok (map (fun r => (r, c)) rows)
       | _, _ => Raise IndexError
       end.

(** [q_vals[rows, cols]] with two index arrays. *)
Definition advanced_index (q_vals : list (list Q)) (rows cols : list Z)
  : Result (list Q) :=
  rbind (broadcast_index rows cols) (fun ix =>
    mapM (fun rc : Z * Z =>
            rbind (np_get q_vals (fst rc)) (fun row => np_get row (snd rc)))
         ix).

(** [target = rewards + (ones_like(terminals) - terminals) * discount *
    T.max(next_q_vals, axis=1, keepdims=True)]; the mask is an [int32]
    column. *)
Definition bootstrap_target (discount : Q) (rewards : list Q)
    (terminals : list Z) (next_q_vals : list (list Q)) : Result (list Q) :=
  rbind (mapM T_max next_q_vals) (fun maxes =>
  let mask := map (fun t => astype_int32 (1 - t)) terminals in
  let scaled := map (fun m => inject_Z m * discount) mask in
  rbind (elemwise Qmult scaled maxes) (fun future =>
  elemwise Qplus rewards future)).







(** [diff = target - q_vals[T.arange(batch_size), actions]] *)
Definition td_error (batch_size : Z) (target : list Q)
    (q_vals : list (list Q)) (actions : list Z) : Result (list Q) :=
  rbind (advanced_index q_vals (py_range batch_size) actions) (fun taken =>
  elemwise Qminus target taken).

(** One row of [0.5 * quadratic_part ** 2 + linear_part]. *)
Definition row_loss (diff : Q) : Q :=
  let quadratic_part := Qmin (Qabs diff) 1 in
  let linear_part := Qabs diff - quadratic_part in
  (1 # 2) * quadratic_part ^ 2 + linear_part.

(** [l2(p) = T.sum(p ** 2)] *)
Definition l2 (p : Array) : Q := T_sum (map (fun x => x ^ 2) (data p)).

(** The arrays of [values] that belong to parameters tagged
    [regularizable]. *)
Fixpoint regularizable_values (ps : list ParamSpec) (values : list Array)
  : list Array :=
  match ps, values with
  | p :: ps', v :: vs' =>
      if regularizable p then v :: regularizable_values ps' vs'
      else regularizable_values ps' vs'
  | _, _ => []
  end.

(** [regularize_network_params(layer, l2)] *)
Definition regularize_network_params (layer : Layer) (values : list Array)
  : Q :=
  T_sum (map l2 (regularizable_values (get_all_params layer) values)).

Inductive EstimatorClass : Type := QNetworkClass | ConvQNetworkClass.

(** [T.sum(loss)] in [QNetwork], [T.mean(loss)] in [ConvQNetwork]. *)
Definition aggregate (c : EstimatorClass) (rows : list Q) : Q :=
  match c with
  | QNetworkClass => T_sum rows
  | ConvQNetworkClass => T_mean rows
  end.

(** The values of the symbolic variables of step 4. *)
Record LossGraph : Type := {
  g_q_vals : list (list Q);
  g_next_q_vals : list (list Q);
  g_target : list Q;
  g_diff : list Q;
  g_rows : list Q;
  g_loss : Q
}.

Local Close Scope Q_scope.

(* ================================================================== *)
(** * The estimators: [QNetwork] and [ConvQNetwork]                    *)
(* ================================================================== *)

(** The constructor arguments kept as attributes.  [input_shape] is an
    integer for [QNetwork] (held as a one-element list) and a tuple for
    [ConvQNetwork]; [num_hidden_layers] exists for [QNetwork] only. *)
Record Config : Type := {
  cls : EstimatorClass;
  input_shape : list Z;
  batch_size : Z;
  num_hidden_layers : Z;
  num_actions : Z;
  num_hidden : Z;
  discount : Q;
  learning_rate : Q;
  regularization : Q;
  update_rule : string;
  freeze_interval : Z
}.

(** The five shared input variables; a state is one row, flattened. *)
Record Buffers : Type := {
  states_shared : list (list Q);
  next_states_shared : list (list Q);
  rewards_shared : list Q;
  actions_shared : list Z;
  terminals_shared : list Z
}.

(** The shape of one batch of states: [(batch_size, input_shape)] for
    [QNetwork], [self.states_shape = (batch_size,) + (1,) + input_shape]
    for [ConvQNetwork]. *)
Definition states_shape (c : Config) : list Z :=
  match cls c with
  | QNetworkClass => batch_size c :: input_shape c
  | ConvQNetworkClass => batch_size c :: 1 :: input_shape c
  end.

(** [np.zeros(shape)] as a list of flattened rows. *)
Definition np_zeros_batch (sh : list Z) : Result (list (list Q)) :=
  if existsb (fun d => d <? 0) sh then Raise ValueError
  else Ok (repeat (repeat 0%Q (Z.to_nat (prod_shape (tl sh))))
                  (Z.to_nat (hd 1 sh))).

(** A one-dimensional array. *)
Definition vector (l : list Q) : Array :=
  {| shape := [Z.of_nat (List.length l)]; data := l |}.

(** Broadcasting of numpy in an assignment [dst[...] = src].  The shape
    of the source is aligned with the shape of the destination from the
    right: missing leading axes count as 1, surplus leading axes must
    be 1. *)
Fixpoint drop_leading_ones (k : nat) (sh : list Z) : option (list Z) :=
  match k, sh with
  | O, _ => Some sh
  | S k', d :: sh' => if d =? 1 then drop_leading_ones k' sh' else None
  | S _, [] => None
  end.

Definition align (src dst : list Z) : option (list Z) :=
  if (List.length dst <? List.length src)%nat
  then drop_leading_ones (List.length src - List.length dst) src
  else Some (repeat 1 (List.length dst - List.length src) ++ src).

(** Every axis of the source has the length of the destination or 1. *)
Definition broadcastable (src dst : list Z) : bool :=
  forallb (fun sd : Z * Z => (fst sd =? snd sd) || (fst sd =? 1))
          (combine src dst).

(** The row-major entries of the source, repeated along its axes of
    length 1. *)
Fixpoint broadcast_data (src dst : list nat) (d : list Q) : list Q :=
  match src, dst with
  | n :: src', m :: dst' =>
      let size := fold_right Nat.mul 1%nat src' in
      if Nat.eqb n m
      then flat_map (fun k => broadcast_data src' dst'
                                (firstn size (skipn (k * size) d)))
                    (seq 0 m)
      else List.concat (repeat (broadcast_data src' dst' d) m)
  | _, _ => d
  end.

Definition np_broadcast_to (dst : list Z) (a : Array) : Result (list Q) :=
  match align (shape a) dst with
  | Some src =>
      if broadcastable src dst
      then Ok (broadcast_data (map Z.to_nat src) (map Z.to_nat dst) (data a))
      else Raise ValueError
  | None => Raise ValueError
  end.

(** [states[0] = state]: row 0, of shape [row_shape], is overwritten by
    [state] broadcast to that shape. *)
Definition np_set_row0 (row_shape : list Z) (states : list (list Q))
    (state : Array) : Result (list (list Q)) :=
  match states with
  | [] => Raise IndexError
  | _ :: rest =>
      rbind (np_broadcast_to row_shape state) (fun row => Ok (row :: rest))
  end.

(** [lasagne.layers.set_all_param_values]: the number of arrays is
    checked first; then each parameter is given its value in turn, after
    its shape has been compared. *)
Fixpoint assign_params (params values : list Array)
  : Result unit * list Array :=
  match params, values with
  | p :: params', v :: values' =>
      if shape_eqb (shape p) (shape v)
      then let '(r, rest) := assign_params params' values' in (r, v :: rest)
      else (Raise ValueError, p :: params')
  | _, _ => (Ok tt, params)
  end.

Definition set_all_param_values (params values : list Array)
  : Result unit * list Array :=
  if Nat.eqb (List.length params) (List.length values)
  then assign_params params values
  else (Raise ValueError, params).

Section Estimator.

Variable E : Engine.

(** A constructed estimator.  [live] and [target] are the values of the
    parameters of [l_out] and of [next_l_out]; [updates] is what
    [initialize_updates] returned and [opt_state] the accumulators of
    that rule. *)
Record Estimator : Type := {
  config : Config;
  rng : Rng E;
  l_out : Layer;
  live : list Array;
  next_l_out : Layer;
  target : list Array;
  buffers : Buffers;
  updates : Loss -> Updates E;
  opt_state : OptState E;
  update_counter : Z
}.

Definition set_live (v : list Array) (s : Estimator) : Estimator :=
  {| config := config s; rng := rng s; l_out := l_out s; live := v;
     next_l_out := next_l_out s; target := target s; buffers := buffers s;
     updates := updates s; opt_state := opt_state s;
     update_counter := update_counter s |}.

Definition set_target (v : list Array) (s : Estimator) : Estimator :=
  {| config := config s; rng := rng s; l_out := l_out s; live := live s;
     next_l_out := next_l_out s; target := v; buffers := buffers s;
     updates := updates s; opt_state := opt_state s;
     update_counter := update_counter s |}.

Definition set_buffers (v : Buffers) (s : Estimator) : Estimator :=
  {| config := config s; rng := rng s; l_out := l_out s; live := live s;
     next_l_out := next_l_out s; target := target s; buffers := v;
     updates := updates s; opt_state := opt_state s;
     update_counter := update_counter s |}.

Definition set_opt_state (v : OptState E) (s : Estimator) : Estimator :=
  {| config := config s; rng := rng s; l_out := l_out s; live := live s;
     next_l_out := next_l_out s; target := target s; buffers := buffers s;
     updates := updates s; opt_state := v;
     update_counter := update_counter s |}.

Definition set_update_counter (v : Z) (s : Estimator) : Estimator :=
  {| config := config s; rng := rng s; l_out := l_out s; live := live s;
     next_l_out := next_l_out s; target := target s; buffers := buffers s;
     updates := updates s; opt_state := opt_state s;
     update_counter := v |}.

Definition set_states_shared (v : list (list Q)) (b : Buffers) : Buffers :=
  {| states_shared := v; next_states_shared := next_states_shared b;
     rewards_shared := rewards_shared b; actions_shared := actions_shared b;
     terminals_shared := terminals_shared b |}.

(** Step 4 of [initialize_network], evaluated with the parameters of
    [l_out] at [params] and everything else as the estimator holds it. *)
Definition formulate_loss (s : Estimator) (params : list Array)
  : Result LossGraph :=
  let c := config s in
  let b := buffers s in
  rbind (get_output E (l_out s) params (states_shared b)) (fun q_vals =>
  rbind (get_output E (next_l_out s) (target s) (next_states_shared b))
    (fun next_q_vals =>
  rbind (bootstrap_target (discount c) (rewards_shared b)
           (terminals_shared b) next_q_vals) (fun tgt =>
  rbind (td_error (batch_size c) tgt q_vals (actions_shared b)) (fun diff =>
  let rows := map row_loss diff in
  Ok {| g_q_vals := q_vals; g_next_q_vals := next_q_vals;
        g_target := tgt; g_diff := diff; g_rows := rows;
        g_loss := (aggregate (cls c) rows
                   + regularization c
                     * regularize_network_params (l_out s) params)%Q |})))).

(** [initialize_updates(self, update_rule, loss, params, learning_rate)];
    the symbolic [loss] is supplied when the compiled function runs. *)
Definition initialize_updates (update_rule : string) (learning_rate : Q)
  : Result (Loss -> Updates E) :=
  if String.eqb update_rule "adam" then
    Ok (fun loss => adam E loss learning_rate)
  else if String.eqb update_rule "rmsprop" then
    Ok (fun loss => rmsprop E loss learning_rate)
  else if String.eqb update_rule "sgd" then
    Ok (fun loss => apply_nesterov_momentum E (sgd E loss learning_rate))
  else Raise ValueError.

(** [reset_target_network(self)] *)
Definition reset_target_network : M Estimator unit :=
  fun s =>
    let all_params := live s in
    let '(r, t) := set_all_param_values (target s) all_params in
    (r, set_target t s).

(** The gradient of the loss passes through the reshape of
    [q_vals[T.arange(batch_size), actions]]: Theano gives the gradient
    the shape it has inferred for the indexed values, [(batch_size,)],
    which raises when they are not [batch_size] many. *)
Definition reshape_grad (batch_size : Z) (diff : list Q) : Result unit :=
  if Z.of_nat (List.length diff) =? batch_size then Ok tt
  else Raise ValueError.

(** [self._train()]: the outputs, the gradient and the new values of the
    rule are computed; only when all of that has succeeded are the new
    values stored in the parameters of [l_out] and in the
    accumulators. *)
Definition _train : M Estimator (Q * list (list Q)) :=
  fun s =>
    match formulate_loss s (live s) with
    | Raise e => (Raise e, s)
    | Ok g =>
        let loss : Loss := fun p => rbind (formulate_loss s p)
                                      (fun g => Ok (g_loss g)) in
        match rbind (reshape_grad (batch_size (config s)) (g_diff g))
                (fun _ => updates s loss (live s) (opt_state s)) with
        | Raise e => (Raise e, s)
        | Ok (p', o') =>
            (Ok (g_loss g, g_q_vals g), set_opt_state o' (set_live p' s))
        end
    end.

(** [self._get_q_values()] *)
Definition _get_q_values : M Estimator (list (list Q)) :=
  fun s =>
    (get_output E (l_out s) (live s) (states_shared (buffers s)), s).

(** [train(self, states, actions, rewards, next_states, terminals)] *)
Definition train (states : list (list Q)) (actions : list Z)
    (rewards : list Q) (next_states : list (list Q)) (terminals : list Z)
  : M Estimator Q :=
  (s <- get ;;
   m <- lift (py_mod (update_counter s) (freeze_interval (config s))) ;;
   (if m =? 0 then reset_target_network else ret tt) ;;;
   modify (fun s => set_update_counter (update_counter s + 1) s) ;;;
   modify (set_buffers
             {| states_shared := states;
                actions_shared := map astype_int32 actions;
                rewards_shared := rewards;
                next_states_shared := next_states;
                terminals_shared := map astype_int32 terminals |}) ;;;
   r <- _train ;;
   ret (fst r))%py.

(** [get_q_values(self, state)] for a state array of any shape. *)
Definition get_q_values_nd (state : Array) : M Estimator (list Q) :=
  (s <- get ;;
   states <- lift (np_zeros_batch (states_shape (config s))) ;;
   states <- lift (np_set_row0 (tl (states_shape (config s))) states
                     state) ;;
   modify (fun s => set_buffers (set_states_shared states (buffers s)) s) ;;;
   q_values <- _get_q_values ;;
   lift (np_get q_values 0))%py.

(** [get_q_values(self, state)] on a state of the documented shape
    [(D,)], a one-dimensional array. *)
Definition get_q_values (state : list Q) : M Estimator (list Q) :=
  get_q_values_nd (vector state).

(** [get_params(self)] *)
Definition get_params : M Estimator (list Array) :=
  fun s => (Ok (live s), s).

(** [QNetwork.set_params(self, params)] *)
Definition set_params (params : list Array) : M Estimator unit :=
  ((fun s =>
     let '(r, l) := set_all_param_values (live s) params in
     (r, set_live l s)) ;;;
  reset_target_network)%py.

(** [QNetwork.finish_episode(self)] *)
Definition finish_episode : M Estimator unit := ret tt.

End Estimator.

Arguments config {E} _.
Arguments rng {E} _.
Arguments l_out {E} _.
Arguments live {E} _.
Arguments next_l_out {E} _.
Arguments target {E} _.
Arguments buffers {E} _.
Arguments updates {E} _.
Arguments opt_state {E} _.
Arguments update_counter {E} _.
Arguments set_live {E} _ _.
Arguments set_target {E} _ _.
Arguments set_buffers {E} _ _.
Arguments set_opt_state {E} _ _.
Arguments set_update_counter {E} _ _.

(* ================================================================== *)
(** * Construction                                                     *)
(* ================================================================== *)

Section Construction.

Variable E : Engine.

(** The object while [__init__] runs: an attribute that has not been
    assigned yet is [None]. *)
Record Self : Type := {
  s_config : Config;
  s_rng : Rng E;
  s_l_out : option Net;
  s_next_l_out : option Net;
  s_buffers : option Buffers;
  s_train : option (Loss -> Updates E);
  s_update_counter : option Z
}.

Definition blank (c : Config) (r : Rng E) : Self :=
  {| s_config := c; s_rng := r; s_l_out := None; s_next_l_out := None;
     s_buffers := None; s_train := None; s_update_counter := None |}.

(** [self.build_network(input_shape, self.num_actions, batch_size)] of
    the class of [self]; the random source advances. *)
Definition self_build_network : M Self Net :=
  fun s =>
    let c := s_config s in
    let '(net, r) :=
      match cls c with
      | QNetworkClass =>
          build_network E (num_hidden_layers c) (num_hidden c)
            (hd 0 (input_shape c)) (num_actions c) (batch_size c) (s_rng s)
      | ConvQNetworkClass =>
          conv_build_network E (num_hidden c) (input_shape c)
            (num_actions c) (batch_size c) (s_rng s)
      end in
    (Ok net,
     {| s_config := c; s_rng := r; s_l_out := s_l_out s;
        s_next_l_out := s_next_l_out s; s_buffers := s_buffers s;
        s_train := s_train s; s_update_counter := s_update_counter s |}).

Definition assign_l_out (n : Net) : M Self unit :=
  modify (fun s =>
    {| s_config := s_config s; s_rng := s_rng s; s_l_out := Some n;
       s_next_l_out := s_next_l_out s; s_buffers := s_buffers s;
       s_train := s_train s; s_update_counter := s_update_counter s |}).

Definition assign_next_l_out (n : Net) : M Self unit :=
  modify (fun s =>
    {| s_config := s_config s; s_rng := s_rng s; s_l_out := s_l_out s;
       s_next_l_out := Some n; s_buffers := s_buffers s;
       s_train := s_train s; s_update_counter := s_update_counter s |}).

Definition assign_buffers (b : Buffers) : M Self unit :=
  modify (fun s =>
    {| s_config := s_config s; s_rng := s_rng s; s_l_out := s_l_out s;
       s_next_l_out := s_next_l_out s; s_buffers := Some b;
       s_train := s_train s; s_update_counter := s_update_counter s |}).

Definition assign_train (u : Loss -> Updates E) : M Self unit :=
  modify (fun s =>
    {| s_config := s_config s; s_rng := s_rng s; s_l_out := s_l_out s;
       s_next_l_out := s_next_l_out s; s_buffers := s_buffers s;
       s_train := Some u; s_update_counter := s_update_counter s |}).

Definition assign_update_counter (n : Z) : M Self unit :=
  modify (fun s =>
    {| s_config := s_config s; s_rng := s_rng s; s_l_out := s_l_out s;
       s_next_l_out := s_next_l_out s; s_buffers := s_buffers s;
       s_train := s_train s; s_update_counter := Some n |}).

(** [reset_target_network] on the object under construction. *)
Definition self_reset_target_network : M Self unit :=
  fun s =>
    match s_l_out s, s_next_l_out s with
    | Some (_, all_params), Some (nl, t) =>
        let '(r, t') := set_all_param_values t all_params in
        (r, snd (assign_next_l_out (nl, t') s))
    | _, _ => (Raise AttributeError, s)
    end.

(** Step 3 of [initialize_network]: the zero-filled shared variables. *)
Definition allocate_buffers (c : Config) : Result Buffers :=
  rbind (np_zeros_batch (states_shape c)) (fun states =>
  rbind (np_zeros_batch (states_shape c)) (fun next_states =>
  rbind (np_zeros (batch_size c)) (fun rewards =>
  rbind (np_zeros (batch_size c)) (fun actions =>
  rbind (np_zeros (batch_size c)) (fun terminals =>
  Ok {| states_shared := states;
        next_states_shared := next_states;
        rewards_shared := rewards;
        actions_shared := map (fun _ => 0) actions;
        terminals_shared := map (fun _ => 0) terminals |}))))).

(** [initialize_network(self)], steps 1 to 6. *)
Definition initialize_network : M Self unit :=
  (s <- get ;;
   (* 1. build the q network and target q network *)
   n <- self_build_network ;;
   assign_l_out n ;;;
   n' <- self_build_network ;;
   assign_next_l_out n' ;;;
   self_reset_target_network ;;;
   (* 3. the numeric variables used as input to functions *)
   b <- lift (allocate_buffers (s_config s)) ;;
   assign_buffers b ;;;
   (* 5. the symbolic updates *)
   u <- lift (initialize_updates E (update_rule (s_config s))
                (learning_rate (s_config s))) ;;
   (* 6. the compiled functions *)
   assign_train u)%py.

(** The body of [__init__] after the arguments have been stored. *)
Definition init_body : M Self unit :=
  (initialize_network ;;;
   assign_update_counter 0)%py.

(** The estimator that a finished [__init__] hands to its caller. *)
Definition finished (s : Self) : option (Estimator E) :=
  match s_l_out s, s_next_l_out s, s_buffers s, s_train s,
        s_update_counter s with
  | Some (l, lv), Some (nl, tv), Some b, Some u, Some n =>
      Some {| config := s_config s; rng := s_rng s; l_out := l; live := lv;
              next_l_out := nl; target := tv; buffers := b; updates := u;
              opt_state := opt_init E; update_counter := n |}
  | _, _, _, _, _ => None
  end.

(** [QNetwork(input_shape, batch_size, num_hidden_layers, num_actions,
    num_hidden, discount, learning_rate, regularization, update_rule,
    freeze_interval, rng)]: the outcome and the object as [__init__]
    left it. *)
Definition QNetwork_init (input_shape batch_size num_hidden_layers
    num_actions num_hidden : Z) (discount learning_rate regularization : Q)
    (update_rule : string) (freeze_interval : Z) (rng : Rng E)
  : Result unit * Self :=
  init_body
    (blank {| cls := QNetworkClass; input_shape := [input_shape];
              batch_size := batch_size;
              num_hidden_layers := num_hidden_layers;
              num_actions := num_actions; num_hidden := num_hidden;
              discount := discount; learning_rate := learning_rate;
              regularization := regularization;
              update_rule := update_rule;
              freeze_interval := freeze_interval |} rng).

(** [ConvQNetwork(input_shape, batch_size, num_actions, num_hidden,
    discount, learning_rate, regularization, update_rule, freeze_interval,
    rng)] *)
Definition ConvQNetwork_init (input_shape : list Z) (batch_size
    num_actions num_hidden : Z) (discount learning_rate regularization : Q)
    (update_rule : string) (freeze_interval : Z) (rng : Rng E)
  : Result unit * Self :=
  init_body
    (blank {| cls := ConvQNetworkClass; input_shape := input_shape;
              batch_size := batch_size; num_hidden_layers := 0;
              num_actions := num_actions; num_hidden := num_hidden;
              discount := discount; learning_rate := learning_rate;
              regularization := regularization;
              update_rule := update_rule;
              freeze_interval := freeze_interval |} rng).

(** The names that the body of each class defines. *)
Definition methods (c : EstimatorClass) : list string :=
  match c with
  | QNetworkClass =>
      ["__init__"; "train"; "get_q_values"; "get_params"; "set_params";
       "reset_target_network"; "finish_episode"; "initialize_network";
       "initialize_updates"; "build_network"]%string
  | ConvQNetworkClass =>
      ["__init__"; "train"; "get_q_values"; "get_params";
       "reset_target_network"; "initialize_network";
       "initialize_updates"; "build_network"]%string
  end.

(** [obj.name(...)]: looking up a name that the class of the object does
    not define raises [AttributeError]. *)
Definition call {A} (name : string) (body : M (Estimator E) A)
  : M (Estimator E) A :=
  fun s =>
    if existsb (String.eqb name) (methods (cls (config s)))
    then body s
    else (Raise AttributeError, s).

(** [network.set_params(network.get_params())] *)
Definition set_params_of_get_params : M (Estimator E) unit :=
  (params <- call "get_params" (get_params E) ;;
   call "set_params" (set_params E params))%py.

End Construction.

(* ================================================================== *)
(** * A reference engine                                               *)
(* ================================================================== *)

(** A small executable instance of [Engine], used to run the estimators
    on concrete inputs: a counter as random source, the forward pass of
    dense layers and of 1x1 convolutions over one input channel, and
    gradients taken as symmetric difference quotients, which are exact on
    each quadratic or linear piece of the loss. *)
Module Ref.

Local Open Scope Q_scope.

Definition he_normal (rng : Z) (sh : list Z) : list Q * Z :=
  (repeat (Qmake (rng + 1) 4) (Z.to_nat (prod_shape sh)), (rng + 1)%Z).

(** [lasagne.nonlinearities.leaky_rectify], leakiness 0.01 *)
Definition apply_nonlinearity (f : option Nonlinearity) (x : Q) : Q :=
  match f with
  | None => x
  | Some leaky_rectify => if Qle_bool 0 x then x else (1 # 100) * x
  end.

Fixpoint dot (x w : list Q) : Q :=
  match x, w with
  | a :: x', b :: w' => a * b + dot x' w'
  | _, _ => 0
  end.

(** Column [j] of a row-major matrix with [rows] rows and [n] columns. *)
Definition column (rows n j : nat) (w : list Q) : list Q :=
  map (fun i => nth (i * n + j) w 0) (seq 0 rows).

Definition dense_row (units : nat) (f : option Nonlinearity)
    (W b x : list Q) : list Q :=
  map (fun j => apply_nonlinearity f (dot x (column (List.length x) units j W) + nth j b 0))
      (seq 0 units).

Definition conv_row (filters : nat) (f : option Nonlinearity)
    (W b x : list Q) : list Q :=
  flat_map (fun k => map (fun v => apply_nonlinearity f
                                     (nth k W 0 * v + nth k b 0)) x)
           (seq 0 filters).

(** The output of layer [l] on the batch [x]; the parameter values are
    consumed from the input side, the unused ones are returned. *)
Fixpoint forward (l : Layer) (params : list Array) (x : list (list Q))
  : Result (list (list Q) * list Array) :=
  match l with
  | InputLayer _ => Ok (x, params)
  | DenseLayer inc n f _ _ =>
      rbind (forward inc params x) (fun r =>
        match snd r with
        | W :: b :: rest =>
            if forallb (fun row => (Z.of_nat (List.length row) * n =?
                                    Z.of_nat (List.length (data W)))%Z)
                       (fst r)
            then Ok (map (dense_row (Z.to_nat n) f (data W) (data b))
                         (fst r), rest)
            else Raise ValueError
        | _ => Raise ValueError
        end)
  | Conv2DLayer inc n fs _ _ f _ _ =>
      rbind (forward inc params x) (fun r =>
        match snd r, fs with
        | W :: b :: rest, (1, 1)%Z =>
            Ok (map (conv_row (Z.to_nat n) f (data W) (data b)) (fst r),
                rest)
        | _, _ => Raise ValueError
        end)
  end.

Definition get_output (l : Layer) (params : list Array)
    (x : list (list Q)) : Result (list (list Q)) :=
  rbind (forward l params x) (fun r => Ok (fst r)).

(** [params] with entry [j] of array [i] moved by [h]. *)
Definition nudge (params : list Array) (i j : nat) (h : Q) : list Array :=
  map (fun ia : nat * Array =>
         if Nat.eqb (fst ia) i
         then {| shape := shape (snd ia);
                 data := map (fun jx : nat * Q =>
                                if Nat.eqb (fst jx) j then snd jx + h
                                else snd jx)
                             (combine (seq 0 (List.length (data (snd ia))))
                                      (data (snd ia))) |}
         else snd ia)
      (combine (seq 0 (List.length params)) params).

Definition value (r : Result Q) : Q :=
  match r with Ok q => q | Raise _ => 0 end.

Definition step : Q := 1 # 1000.

(** The partial derivative of [loss] in entry [j] of array [i]. *)
Definition partial (loss : Loss) (params : list Array) (i j : nat) : Q :=
  (value (loss (nudge params i j step))
   - value (loss (nudge params i j (- step)))) / (2 * step).

Definition grad (loss : Loss) (params : list Array) : list (list Q) :=
  map (fun i => map (partial loss params i)
                    (seq 0 (List.length (data (nth i params
                                                 {| shape := []; data := [] |})))))
      (seq 0 (List.length params)).

Fixpoint zip_data (f : Q -> Q -> Q) (p : list Q) (g : list Q) : list Q :=
  match p, g with
  | x :: p', y :: g' => f x y :: zip_data f p' g'
  | x :: p', [] => f x 0 :: zip_data f p' []
  | [], _ => []
  end.

Fixpoint zip_arrays (f : Q -> Q -> Q) (ps : list Array) (gs : list (list Q))
  : list Array :=
  match ps with
  | [] => []
  | p :: ps' =>
      {| shape := shape p; data := zip_data f (data p) (hd [] gs) |}
      :: zip_arrays f ps' (tl gs)
  end.

(** [lasagne.updates.sgd]: [param - learning_rate * grad]; the step
    raises what the loss raises at [params]. *)
Definition sgd (loss : Loss) (lr : Q) (params : list Array)
    (o : list (list Q)) : Result (list Array * list (list Q)) :=
  rbind (loss params) (fun _ =>
    Ok (zip_arrays (fun p g => p - lr * g) params (grad loss params), o)).

(** [lasagne.updates.apply_nesterov_momentum], momentum 0.9: with
    velocity [v], [x = 0.9 * v + update - param] becomes the velocity and
    [0.9 * x + update] the parameter. *)
Definition apply_nesterov_momentum
    (u : list Array -> list (list Q) ->
         Result (list Array * list (list Q)))
    (params : list Array) (o : list (list Q))
  : Result (list Array * list (list Q)) :=
  rbind (u params o) (fun r =>
    let upd := fst r in
    let x := zip_arrays (fun a b => a + b)
               (zip_arrays (fun a b => a - b) upd (map data params))
               (map (map (fun v => (9 # 10) * v)) o) in
    Ok (zip_arrays (fun a b => a + (9 # 10) * b) upd (map data x),
        map data x)).

(** The moment-based rules divide by square roots, which the rationals
    lack; the reference engine takes the plain gradient step for them. *)
Definition engine : Engine :=
  Build_Engine Z (list (list Q)) he_normal get_output [] sgd sgd sgd
    apply_nesterov_momentum.

End Ref.

(* ================================================================== *)
(** * Vocabulary of the statements                                     *)
(* ================================================================== *)

(** One Transition Batch: the five arguments of [train]. *)
Record Batch : Type := {
  b_states : list (list Q);
  b_actions : list Z;
  b_rewards : list Q;
  b_next_states : list (list Q);
  b_terminals : list Z
}.

Definition train_batch (E : Engine) (b : Batch) : M (Estimator E) Q :=
  train E (b_states b) (b_actions b) (b_rewards b) (b_next_states b)
    (b_terminals b).

(** The estimator before the first call and after each call of a run of
    training calls. *)
Fixpoint train_calls (E : Engine) (s : Estimator E) (bs : list Batch)
  : list (Estimator E) :=
  s :: match bs with
       | [] => []
       | b :: bs' => train_calls E (snd (train_batch E b s)) bs'
       end.

(** The buffers that [train] binds to a batch. *)
Definition bound (b : Batch) : Buffers :=
  {| states_shared := b_states b;
     actions_shared := map astype_int32 (b_actions b);
     rewards_shared := b_rewards b;
     next_states_shared := b_next_states b;
     terminals_shared := map astype_int32 (b_terminals b) |}.

(** Two Parameter Sets hold arrays of the same shapes. *)
Definition same_shapes (p q : list Array) : Prop :=
  map shape p = map shape q.

(** The update rule of an estimator returns arrays of the shapes it was
    given, as every rule of Lasagne does. *)
Definition keeps_shapes {E : Engine} (s : Estimator E) : Prop :=
  forall loss p o r, updates s loss p o = Ok r -> same_shapes (fst r) p.


(** The estimator as [train] hands it to the compiled function: the
    counter incremented and the buffers bound to the batch. *)
Definition prepared {E : Engine} (b : Batch) (s : Estimator E)
  : Estimator E :=
  set_buffers (bound b) (set_update_counter (update_counter s + 1) s).

(** The values of a network under construction have the shapes of the
    parameters of its layers. *)
Definition net_ok (n : Net) : Prop :=
  map shape (snd n) = map p_shape (get_all_params (fst n)).

(** Equality of two Parameter Sets as numbers. *)
Definition array_eqb (a b : Array) : bool :=
  shape_eqb (shape a) (shape b)
  && Nat.eqb (List.length (data a)) (List.length (data b))
  && forallb (fun xy => Qeq_bool (fst xy) (snd xy))
             (combine (data a) (data b)).

Definition params_eqb (p q : list Array) : bool :=
  Nat.eqb (List.length p) (List.length q)
  && forallb (fun ab => array_eqb (fst ab) (snd ab)) (combine p q).




(** The configurations whose networks Lasagne and numpy build: every
    dimension is positive, and the input of a [QNetwork] is one number
    of features, that of a [ConvQNetwork] a height and a width. *)
Definition constructible (c : Config) : Prop :=
  0 < batch_size c
  /\ Forall (fun d => 0 < d) (input_shape c)
  /\ 0 < num_hidden c
  /\ 0 < num_actions c
  /\ List.length (input_shape c)
     = match cls c with
       | QNetworkClass => 1%nat
       | ConvQNetworkClass => 2%nat
       end.

(** The update rules that [initialize_updates] recognises. *)
Definition recognised (update_rule : string) : bool :=
  existsb (String.eqb update_rule) ["adam"; "rmsprop"; "sgd"]%string.

(* ================================================================== *)
(** * Concrete estimators on the reference engine                      *)
(* ================================================================== *)

Module Example.

(** [QNetwork(input_shape=1, batch_size=2, num_hidden_layers=0,
    num_actions=2, num_hidden=1, discount=1, learning_rate=0.1,
    regularization=0, update_rule='sgd', freeze_interval=2, rng)] *)
Definition constructed : Result unit * Self Ref.engine :=
  QNetwork_init Ref.engine 1 2 0 2 1 1 (1 # 10) 0 "sgd" 2 0.

(** The same call with [update_rule='unknown']. *)
Definition misconfigured : Result unit * Self Ref.engine :=
  QNetwork_init Ref.engine 1 2 0 2 1 1 (1 # 10) 0 "unknown" 2 0.

(** [ConvQNetwork(input_shape=(1, 1), batch_size=2, num_actions=2,
    num_hidden=1, discount=1, learning_rate=0.1, regularization=0,
    update_rule='sgd', freeze_interval=2, rng)] *)
Definition conv_constructed : Result unit * Self Ref.engine :=
  ConvQNetwork_init Ref.engine [1; 1] 2 2 1 1 (1 # 10) 0 "sgd" 2 0.

(** The estimator of a finished construction; [fallback] stands in
    where the construction raised. *)
Definition built (r : Result unit * Self Ref.engine)
    (fallback : Estimator Ref.engine) : Estimator Ref.engine :=
  match finished Ref.engine (snd r) with
  | Some e => e
  | None => fallback
  end.

Definition unbuilt (c : Config) : Estimator Ref.engine :=
  Build_Estimator Ref.engine c 0 (InputLayer []) [] (InputLayer []) []
    {| states_shared := []; next_states_shared := [];
       rewards_shared := []; actions_shared := []; terminals_shared := [] |}
    (fun loss => Ref.sgd loss 0) [] 0.

Definition network : Estimator Ref.engine :=
  built constructed (unbuilt (s_config Ref.engine (snd constructed))).

Definition conv_network : Estimator Ref.engine :=
  built conv_constructed
    (unbuilt (s_config Ref.engine (snd conv_constructed))).

(** A Transition Batch of the configured size 2. *)
Definition batch : Batch :=
  {| b_states := [[1%Q]; [2%Q]];
     b_actions := [0; 1];
     b_rewards := [1%Q; 0%Q];
     b_next_states := [[2%Q]; [1%Q]];
     b_terminals := [1; 0] |}.

(** A batch of one transition, handed to an estimator of batch size 2. *)
Definition short_batch : Batch :=
  {| b_states := [[1%Q]];
     b_actions := [0];
     b_rewards := [1%Q];
     b_next_states := [[2%Q]];
     b_terminals := [1] |}.

(** [network] after [train] has bound [batch] to its buffers. *)
Definition bound_network : Estimator Ref.engine :=
  set_buffers (bound batch) network.

Definition bound_conv_network : Estimator Ref.engine :=
  set_buffers (bound batch) conv_network.





End Example.

(* ================================================================== *)
(** * Facts about lists and results                                    *)
(* ================================================================== *)

Lemma set_nth_repeat_one_hot (n i s : nat) :
  (i < n)%nat ->
  set_nth (repeat 0%Q n) i 1%Q
  = map (fun j => if Nat.eqb j (s + i) then 1%Q else 0%Q) (seq s n).
Proof.
  revert i s. induction n as [|n IH]; intros i s Hi; [lia|].
  destruct i as [|i]; simpl.
  - rewrite Nat.add_0_r, Nat.eqb_refl. f_equal.
    clear IH Hi. generalize (S s) (Nat.lt_succ_diag_r s).
    induction n as [|n IH]; intros t Ht; simpl; [reflexivity|].
    destruct (Nat.eqb_spec t s); [lia|]. f_equal. apply IH. lia.
  - destruct (Nat.eqb_spec s (s + S i)); [lia|]. f_equal.
    rewrite (IH i (S s)) by lia.
    apply map_ext. intros j. now rewrite Nat.add_succ_comm.
Qed.

Lemma np_zeros_pos (n : Z) :
  0 <= n -> np_zeros n = Ok (repeat 0%Q (Z.to_nat n)).
Proof.
  intros H. unfold np_zeros. destruct (Z.ltb_spec n 0); [lia|reflexivity].
Qed.

Lemma np_index_in_range (len i : Z) :
  0 <= i < len -> np_index len i = Ok (Z.to_nat i).
Proof.
  intros [H1 H2]. unfold np_index.
  destruct (Z.leb_spec 0 i); [|lia]. destruct (Z.ltb_spec i len); [|lia].
  reflexivity.
Qed.

Lemma one_hot_encoding (n i : Z) :
  0 <= i < n ->
  rbind (np_zeros n) (fun a => np_setitem a i 1%Q)
  = Ok (one_hot (Z.to_nat n) (Z.to_nat i)).
Proof.
  intros H. rewrite np_zeros_pos by lia. simpl.
  unfold np_setitem, zlength. rewrite repeat_length, Z2Nat.id by lia.
  rewrite np_index_in_range by lia. simpl. f_equal.
  apply (set_nth_repeat_one_hot _ _ 0). lia.
Qed.

Lemma one_hot_length (n i : nat) : List.length (one_hot n i) = n.
Proof. unfold one_hot. now rewrite length_map, length_seq. Qed.

(* ================================================================== *)
(** * The single-room encoder                                          *)
(* ================================================================== *)

(** C9. For a positive room size and every pair of integer coordinates,
    the single-room encoder returns the one-hot vector of
    [row mod room_size] followed by the one-hot vector of
    [column mod room_size], [2 * room_size] entries in all. *)
Theorem single_room_encoder_one_hot (room_size ridx cidx : Z) :
  0 < room_size ->
  let n := Z.to_nat room_size in
  exists v,
    CoordinatesToSingleRoomRowColAdapter.convert_state_to_agent_format
      (CoordinatesToSingleRoomRowColAdapter.init room_size) (ridx, cidx)
    = Ok v
    /\ v = one_hot n (Z.to_nat (ridx mod room_size))
           ++ one_hot n (Z.to_nat (cidx mod room_size))
    /\ zlength v = 2 * room_size.
Proof.
  intros Hpos n.
  pose proof (Z.mod_pos_bound ridx room_size Hpos) as Hr.
  pose proof (Z.mod_pos_bound cidx room_size Hpos) as Hc.
  eexists. split; [|split; [reflexivity|]].
  - unfold CoordinatesToSingleRoomRowColAdapter.convert_state_to_agent_format,
      CoordinatesToSingleRoomRowColAdapter.init,
      CoordinatesToSingleRoomRowColAdapter.room_size, py_mod.
    destruct (Z.eqb_spec room_size 0); [lia|].
    rewrite np_zeros_pos by lia. cbn [rbind].
    unfold np_setitem, zlength. rewrite repeat_length, Z2Nat.id by lia.
    rewrite !np_index_in_range by lia. cbn [rbind].
    rewrite !(set_nth_repeat_one_hot _ _ 0) by lia. reflexivity.
  - unfold zlength. rewrite length_app, !one_hot_length. lia.
Qed.

(** The example of the specification: room size 3 and the state (4, 4). *)
Lemma single_room_encoder_one_hot_witness :
  exists v,
    CoordinatesToSingleRoomRowColAdapter.convert_state_to_agent_format
      (CoordinatesToSingleRoomRowColAdapter.init 3) (4, 4)
    = Ok v
    /\ v = [0; 1; 0; 0; 1; 0]%Q
    /\ zlength v = 6.
Proof.
  destruct (single_room_encoder_one_hot 3 4 4) as [v [H1 [H2 H3]]]; [lia|].
  exists v. split; [exact H1|]. split; [|exact H3].
  rewrite H2. reflexivity.
Defined.

(* ================================================================== *)
(** * The builders                                                     *)
(* ================================================================== *)

Section BuilderFacts.

Variable E : Engine.

Lemma new_layer_layer (inc : Net) (mk : Layer -> Layer) (r : Rng E) :
  fst (fst (new_layer E inc mk r)) = mk (fst inc).
Proof.
  unfold new_layer. destruct (sample_all E _ r). reflexivity.
Qed.

Lemma new_layer_values (inc : Net) (mk : Layer -> Layer) (r : Rng E) :
  snd (fst (new_layer E inc mk r))
  = snd inc ++ fst (sample_all E (layer_params (mk (fst inc))) r).
Proof.
  unfold new_layer. destruct (sample_all E _ r). reflexivity.
Qed.

Lemma sample_all_shapes (ps : list ParamSpec) (r : Rng E) :
  map shape (fst (sample_all E ps r)) = map p_shape ps.
Proof.
  revert r. induction ps as [|p ps IH]; intros r; [reflexivity|].
  simpl. destruct (sample E (p_init p) (p_shape p) r) as [a r1] eqn:Ha.
  specialize (IH r1). destruct (sample_all E ps r1) as [v r2].
  simpl in *. rewrite IH. f_equal.
  unfold sample in Ha. destruct (p_init p).
  - destruct (he_normal E r (p_shape p)). now inversion Ha.
  - now inversion Ha.
Qed.

(** After at least one pass, [l_hid] is a dense layer on [l_in]. *)
Lemma hidden_loop_layer (nh : Z) (l_in : Net) (idxs : list Z)
    (st : Net * Rng E) :
  idxs <> [] ->
  fst (fst (hidden_loop E nh l_in idxs st))
  = DenseLayer (fst l_in) nh (Some leaky_rectify) HeNormal
      (Constant (1 # 10)).
Proof.
  revert st. induction idxs as [|i idxs IH]; intros st H; [congruence|].
  destruct idxs as [|j idxs].
  - simpl. apply new_layer_layer.
  - change (hidden_loop E nh l_in (i :: j :: idxs) st)
      with (hidden_loop E nh l_in (j :: idxs)
              (new_layer E l_in
                 (fun inc => DenseLayer inc nh (Some leaky_rectify)
                               HeNormal (Constant (1 # 10))) (snd st))).
    apply IH. discriminate.
Qed.

(** After at least one pass, the values held for [l_hid] are those of
    one dense layer on [l_in]: the layers of earlier passes are gone. *)
Lemma hidden_loop_values_length (nh : Z) (l_in : Net) (idxs : list Z)
    (st : Net * Rng E) :
  idxs <> [] ->
  List.length (snd (fst (hidden_loop E nh l_in idxs st)))
  = (List.length (snd l_in) + 2)%nat.
Proof.
  revert st. induction idxs as [|i idxs IH]; intros st H; [congruence|].
  destruct idxs as [|j idxs].
  - simpl. rewrite new_layer_values, length_app.
    pose proof (f_equal (@List.length _)
                  (sample_all_shapes
                     (layer_params
                        (DenseLayer (fst l_in) nh (Some leaky_rectify)
                           HeNormal (Constant (1 # 10)))) (snd st))) as L.
    rewrite !length_map in L. rewrite L. reflexivity.
  - change (hidden_loop E nh l_in (i :: j :: idxs) st)
      with (hidden_loop E nh l_in (j :: idxs)
              (new_layer E l_in
                 (fun inc => DenseLayer inc nh (Some leaky_rectify)
                               HeNormal (Constant (1 # 10))) (snd st))).
    apply IH. discriminate.
Qed.

Lemma py_range_nonempty (n : Z) : 1 <= n -> py_range n <> [].
Proof.
  intros H. unfold py_range.
  destruct (Z.to_nat n) eqn:Hn; [lia|]. discriminate.
Qed.

Lemma py_range_prefix (j n : Z) :
  0 <= j <= n -> exists rest, py_range n = py_range j ++ rest.
Proof.
  intros H. unfold py_range.
  exists (map Z.of_nat (seq (Z.to_nat j) (Z.to_nat n - Z.to_nat j))).
  rewrite <- map_app. f_equal.
  replace (Z.to_nat n) with (Z.to_nat j + (Z.to_nat n - Z.to_nat j))%nat
    at 1 by lia.
  apply seq_app.
Qed.

(** C5. In [QNetwork.build_network] with at least one hidden layer,
    the layer that each pass of the loop constructs is a dense layer of
    width [num_hidden] whose source is the input layer, whatever was
    constructed before it; the output layer is a linear dense layer of
    width [output_shape] whose source is the hidden layer of the last
    pass, so that only that hidden layer lies between input and output. *)
Theorem hidden_layers_branch_from_input
    (num_hidden_layers num_hidden input_shape output_shape batch_size : Z)
    (r : Rng E) :
  1 <= num_hidden_layers ->
  let l_in := InputLayer [batch_size; input_shape] in
  let hidden :=
    DenseLayer l_in num_hidden (Some leaky_rectify) HeNormal
      (Constant (1 # 10)) in
  let net :=
    fst (build_network E num_hidden_layers num_hidden input_shape
           output_shape batch_size r) in
  (forall j st, 1 <= j <= num_hidden_layers ->
     let l_hid := fst (fst (hidden_loop E num_hidden (l_in, [])
                              (py_range j) st)) in
     l_hid = hidden /\ input_layer l_hid = Some l_in)
  /\ fst net = DenseLayer hidden output_shape None HeNormal (Constant 0)
  /\ input_layer (fst net) = Some hidden
  /\ List.length (snd net) = 4%nat.
Proof.
  intros Hn l_in hidden net. split; [|].
  - intros j st Hj l_hid.
    assert (l_hid = hidden) as ->.
    { unfold l_hid. rewrite hidden_loop_layer by (apply py_range_nonempty; lia).
      reflexivity. }
    split; reflexivity.
  - assert (fst net = DenseLayer hidden output_shape None HeNormal
                        (Constant 0)
            /\ List.length (snd net) = 4%nat) as [H1 H2].
    { unfold net, build_network. cbv zeta.
      match goal with
      | |- context [hidden_loop E ?nh ?li ?ix ?st] =>
          pose proof (hidden_loop_layer nh li ix st
                        (py_range_nonempty _ Hn)) as HL;
          pose proof (hidden_loop_values_length nh li ix st
                        (py_range_nonempty _ Hn)) as HV;
          destruct (hidden_loop E nh li ix st) as [l_hid r1]
      end.
      simpl in HL, HV. cbv beta iota zeta. split.
      - rewrite new_layer_layer, HL. reflexivity.
      - rewrite new_layer_values, length_app, HV.
        pose proof (f_equal (@List.length _)
                      (sample_all_shapes
                         (layer_params
                            (DenseLayer (fst l_hid) output_shape None
                               HeNormal (Constant 0))) r1)) as L.
        rewrite !length_map in L. rewrite L. reflexivity. }
    rewrite H1. repeat split; assumption.
Qed.

End BuilderFacts.

(** Three hidden layers on the reference engine: one hidden layer on the
    input is all that the built network holds before its output layer. *)
Lemma hidden_layers_branch_from_input_witness :
  fst (fst (build_network Ref.engine 3 2 2 2 2 0))
  = DenseLayer
      (DenseLayer (InputLayer [2; 2]) 2 (Some leaky_rectify) HeNormal
         (Constant (1 # 10)))
      2 None HeNormal (Constant 0).
Proof.
  apply (hidden_layers_branch_from_input Ref.engine 3 2 2 2 2 0). lia.
Defined.

(* ================================================================== *)
(** * The loss                                                         *)
(* ================================================================== *)

Local Open Scope Q_scope.

Lemma elemwise_length {A B C} (f : A -> B -> C) la lb r :
  elemwise f la lb = Ok r ->
  List.length la = List.length r /\ List.length lb = List.length r.
Proof.
  revert lb r. induction la as [|a la IH]; intros [|b lb] r H;
    simpl in H; try discriminate.
  - inversion H. split; reflexivity.
  - destruct (elemwise f la lb) as [r'|] eqn:Hr; simpl in H; [|discriminate].
    inversion H; subst. destruct (IH _ _ Hr). simpl. split; congruence.
Qed.

Lemma elemwise_nth {A B C} (f : A -> B -> C) la lb r i a b :
  elemwise f la lb = Ok r ->
  nth_error la i = Some a -> nth_error lb i = Some b ->
  nth_error r i = Some (f a b).
Proof.
  revert lb r i. induction la as [|a' la IH]; intros [|b' lb] r i H Ha Hb;
    simpl in H; try discriminate.
  - destruct i; discriminate.
  - destruct (elemwise f la lb) as [r'|] eqn:Hr; simpl in H; [|discriminate].
    inversion H; subst. destruct i as [|i]; simpl in *.
    + congruence.
    + eapply IH; eauto.
Qed.

Lemma mapM_length {A B} (f : A -> Result B) l r :
  mapM f l = Ok r -> List.length l = List.length r.
Proof.
  revert r. induction l as [|a l IH]; intros r H; simpl in H.
  - inversion H. reflexivity.
  - destruct (f a); simpl in H; [|discriminate].
    destruct (mapM f l) eqn:Hm; simpl in H; [|discriminate].
    inversion H; subst. simpl. f_equal. now apply IH.
Qed.

Lemma mapM_nth {A B} (f : A -> Result B) l r i a :
  mapM f l = Ok r -> nth_error l i = Some a ->
  exists b, f a = Ok b /\ nth_error r i = Some b.
Proof.
  revert r i. induction l as [|a' l IH]; intros r i H Ha; simpl in H.
  - destruct i; discriminate.
  - destruct (f a') as [b'|] eqn:Hf; simpl in H; [|discriminate].
    destruct (mapM f l) as [bs|] eqn:Hm; simpl in H; [|discriminate].
    inversion H; subst. destruct i as [|i]; simpl in *.
    + inversion Ha; subst. eauto.
    + eapply IH; eauto.
Qed.




Lemma astype_int32_small (z : Z) :
  (-2147483648 <= z < 2147483648)%Z -> astype_int32 z = z.
Proof.
  intros H. unfold astype_int32. rewrite Z.mod_small; lia.
Qed.

Section LossFacts.

Variable E : Engine.

(** What a successful evaluation of the loss graph went through. *)
Lemma formulate_loss_inv (s : Estimator E) (params : list Array)
    (g : LossGraph) :
  formulate_loss E s params = Ok g ->
  get_output E (l_out s) params (states_shared (buffers s))
    = Ok (g_q_vals g)
  /\ get_output E (next_l_out s) (target s)
       (next_states_shared (buffers s)) = Ok (g_next_q_vals g)
  /\ bootstrap_target (discount (config s)) (rewards_shared (buffers s))
       (terminals_shared (buffers s)) (g_next_q_vals g) = Ok (g_target g)
  /\ td_error (batch_size (config s)) (g_target g) (g_q_vals g)
       (actions_shared (buffers s)) = Ok (g_diff g)
  /\ g_rows g = map row_loss (g_diff g)
  /\ g_loss g = aggregate (cls (config s)) (g_rows g)
                + regularization (config s)
                  * regularize_network_params (l_out s) params.
Proof.
  unfold formulate_loss. intros H.
  destruct (get_output E (l_out s) params _) as [q|]; [|discriminate].
  destruct (get_output E (next_l_out s) (target s) _) as [nq|];
    [|discriminate].
  cbn [rbind] in H.
  destruct (bootstrap_target _ _ _ nq) as [tg|] eqn:Ht; [|discriminate].
  cbn [rbind] in H.
  destruct (td_error _ tg q _) as [d|] eqn:Hd; [|discriminate].
  cbn [rbind] in H. inversion H; subst; cbn.
  repeat split; assumption.
Qed.

End LossFacts.

Lemma nth_error_some_lt {A} (l : list A) i a :
  nth_error l i = Some a -> (i < List.length l)%nat.
Proof. intros H. apply nth_error_Some. congruence. Qed.

Lemma nth_error_lt_some {A} (l : list A) i :
  (i < List.length l)%nat -> exists a, nth_error l i = Some a.
Proof.
  intros H. destruct (nth_error l i) eqn:Hn; [eauto|].
  apply nth_error_None in Hn. lia.
Qed.

Lemma nth_error_py_range (n : Z) (i : nat) :
  (i < Z.to_nat n)%nat -> nth_error (py_range n) i = Some (Z.of_nat i).
Proof.
  intros H. unfold py_range. rewrite nth_error_map.
  rewrite nth_error_seq. destruct (Nat.ltb_spec i (Z.to_nat n)); [|lia].
  reflexivity.
Qed.

Lemma nth_error_combine {A B} (la : list A) (lb : list B) i a b :
  nth_error la i = Some a -> nth_error lb i = Some b ->
  nth_error (combine la lb) i = Some (a, b).
Proof.
  revert lb i. induction la as [|a' la IH]; intros [|b' lb] [|i] Ha Hb;
    simpl in *; try discriminate.
  - congruence.
  - now apply IH.
Qed.

Lemma np_get_nat {A} (l : list A) (i : nat) (x : A) :
  np_get l (Z.of_nat i) = Ok x -> nth_error l i = Some x.
Proof.
  unfold np_get, np_index, zlength. intros H.
  destruct (Z.leb_spec 0 (Z.of_nat i)); [|lia].
  destruct (Z.ltb_spec (Z.of_nat i) (Z.of_nat (List.length l))); cbn in H.
  - rewrite Nat2Z.id in H. destruct (nth_error l i); [|discriminate].
    congruence.
  - destruct (Z.ltb_spec (Z.of_nat i) 0); [lia|].
    rewrite andb_false_r in H. discriminate.
Qed.

Lemma row_loss_quadratic (d : Q) :
  Qabs d <= 1 -> row_loss d == (1 # 2) * d ^ 2.
Proof.
  intros H. unfold row_loss. cbv zeta.
  rewrite (Q.min_l _ _ H).
  assert (Qabs d ^ 2 == d ^ 2) as ->.
  { simpl. rewrite <- Qabs_Qmult. apply Qabs_pos.
    destruct (Qlt_le_dec d 0) as [Hn|Hp].
    - setoid_replace (d * d) with ((- d) * (- d)) by ring.
      apply Qmult_le_0_compat; lra.
    - apply Qmult_le_0_compat; assumption. }
  ring.
Qed.

Lemma row_loss_linear (d : Q) :
  1 <= Qabs d -> row_loss d == Qabs d - (1 # 2).
Proof.
  intros H. unfold row_loss. cbv zeta.
  rewrite (Q.min_r _ _ H). simpl. ring.
Qed.






Section LossTheorems.

Variable E : Engine.


(** C3. Whenever the loss graph evaluates on a batch of the configured
    size, the TD error of row [i] is the target of the row minus the
    value of the live network for the action taken, and the loss of the
    row is [row_loss] of it: [0.5 * min(|d|, 1)^2 + (|d| - min(|d|, 1))],
    which is [0.5 * d^2] up to [|d| = 1], [|d| - 0.5] from there on,
    [0.5] at [|d| = 1] and [1.5] at [|d| = 2]. *)
Theorem row_loss_is_clipped_quadratic (s : Estimator E)
    (params : list Array) (g : LossGraph) :
  formulate_loss E s params = Ok g ->
  zlength (actions_shared (buffers s)) = batch_size (config s) ->
  (forall i a tg,
     nth_error (actions_shared (buffers s)) i = Some a ->
     nth_error (g_target g) i = Some tg ->
     exists row q,
       nth_error (g_q_vals g) i = Some row
       /\ np_get row a = Ok q
       /\ nth_error (g_diff g) i = Some (tg - q)
       /\ nth_error (g_rows g) i = Some (row_loss (tg - q)))
  /\ (forall d,
        row_loss d
        == (1 # 2) * Qmin (Qabs d) 1 ^ 2 + (Qabs d - Qmin (Qabs d) 1))
  /\ (forall d, Qabs d <= 1 -> row_loss d == (1 # 2) * d ^ 2)
  /\ (forall d, 1 <= Qabs d -> row_loss d == Qabs d - (1 # 2))
  /\ (forall d, Qabs d == 1 -> row_loss d == 1 # 2)
  /\ (forall d, Qabs d == 2 -> row_loss d == 3 # 2).
Proof.
  intros Hg Hlen.
  destruct (formulate_loss_inv E s params g Hg)
    as (_ & _ & _ & Hd & Hrows & _).
  split; [|split; [|split; [|split; [|split]]]].
  - intros i a tg Ha Ht.
    unfold td_error in Hd.
    destruct (advanced_index _ _ _) as [taken|] eqn:Hadv; [|discriminate].
    cbn [rbind] in Hd. unfold advanced_index, broadcast_index in Hadv.
    assert (List.length (py_range (batch_size (config s)))
            = List.length (actions_shared (buffers s))) as Hl.
    { unfold py_range. rewrite length_map, length_seq.
      unfold zlength in Hlen. lia. }
    rewrite Hl, Nat.eqb_refl in Hadv. cbn [rbind] in Hadv.
    pose proof (nth_error_some_lt _ _ _ Ha) as Hi.
    assert (nth_error (py_range (batch_size (config s))) i
            = Some (Z.of_nat i)) as Hri.
    { apply nth_error_py_range. unfold py_range in Hl.
      rewrite length_map, length_seq in Hl. lia. }
    destruct (mapM_nth _ _ _ _ _ Hadv (nth_error_combine _ _ _ _ _ Hri Ha))
      as (q & Hq & Hqi).
    cbn [fst snd] in Hq.
    destruct (np_get (g_q_vals g) (Z.of_nat i)) as [row|] eqn:Hrow;
      [|discriminate].
    cbn [rbind] in Hq. exists row, q.
    pose proof (elemwise_nth _ _ _ _ i _ _ Hd Ht Hqi) as Hdi.
    repeat split; try assumption.
    + now apply np_get_nat.
    + rewrite Hrows. now apply map_nth_error.
  - intros d. reflexivity.
  - apply row_loss_quadratic.
  - apply row_loss_linear.
  - intros d Hd1. rewrite row_loss_linear by (rewrite Hd1; apply Qle_refl).
    rewrite Hd1. reflexivity.
  - intros d Hd2. rewrite row_loss_linear by (rewrite Hd2; discriminate).
    rewrite Hd2. reflexivity.
Qed.

End LossTheorems.

Section TrainFacts.

Variable E : Engine.

(** [train], step by step. *)
Lemma train_spec (b : Batch) (s : Estimator E) :
  train_batch E b s
  = match py_mod (update_counter s) (freeze_interval (config s)) with
    | Raise e => (Raise e, s)
    | Ok m =>
        match (if (m =? 0)%Z then reset_target_network E s
               else (Ok tt, s)) with
        | (Raise e, s1) => (Raise e, s1)
        | (Ok _, s1) =>
            match _train E (prepared b s1) with
            | (Ok x, s2) => (Ok (fst x), s2)
            | (Raise e, s2) => (Raise e, s2)
            end
        end
    end.
Proof.
  unfold train_batch, train, bind, get, lift, modify, ret, prepared, bound.
  destruct (py_mod _ _) as [m|e]; [|reflexivity].
  destruct (m =? 0)%Z.
  - destruct (reset_target_network E s) as [[u|e] s1]; [|reflexivity].
    destruct (_train E _) as [[x|e] s2]; reflexivity.
  - destruct (_train E _) as [[x|e] s2]; reflexivity.
Qed.

Lemma _train_spec (s : Estimator E) :
  _train E s
  = match formulate_loss E s (live s) with
    | Raise e => (Raise e, s)
    | Ok g =>
        match rbind (reshape_grad (batch_size (config s)) (g_diff g))
                (fun _ =>
                   updates s
                     (fun p => rbind (formulate_loss E s p)
                                 (fun g => Ok (g_loss g)))
                     (live s) (opt_state s)) with
        | Raise e => (Raise e, s)
        | Ok u =>
            (Ok (g_loss g, g_q_vals g),
             set_opt_state (snd u) (set_live (fst u) s))
        end
    end.
Proof.
  unfold _train. destruct (formulate_loss E s (live s)); [|reflexivity].
  cbv zeta. destruct (rbind _ _) as [[p' o']|e]; reflexivity.
Qed.







End TrainFacts.

(* ------------------------------------------------------------------ *)
(** ** The loss on the example batch                                   *)
(* ------------------------------------------------------------------ *)



(** The example batch has the configured size 2. *)
Lemma row_loss_is_clipped_quadratic_witness :
  exists g,
    formulate_loss Ref.engine Example.bound_network
      (live Example.bound_network) = Ok g
    /\ zlength (actions_shared (buffers Example.bound_network))
       = batch_size (config Example.bound_network)
    /\ (exists row q tg,
          nth_error (g_q_vals g) 0 = Some row
          /\ np_get row 0%Z = Ok q
          /\ nth_error (g_target g) 0 = Some tg
          /\ nth_error (g_rows g) 0 = Some (row_loss (tg - q)))
    /\ row_loss 1 == 1 # 2
    /\ row_loss 2 == 3 # 2.
Proof.
  destruct (formulate_loss Ref.engine Example.bound_network
              (live Example.bound_network)) as [g|e] eqn:Hg;
    [|vm_compute in Hg; discriminate].
  destruct (row_loss_is_clipped_quadratic Ref.engine
              Example.bound_network (live Example.bound_network) g Hg
              eq_refl) as (Hrow & _ & _ & _ & H1 & H2).
  exists g. split; [reflexivity|]. split; [reflexivity|].
  split; [|split].
  - destruct (nth_error (g_target g) 0) as [tg|] eqn:Htg.
    + destruct (Hrow 0%nat 0%Z tg eq_refl Htg)
        as (row & q & Ha & Hb & _ & Hd).
      exists row, q, tg. repeat split; assumption.
    + vm_compute in Hg. injection Hg as <-. discriminate.
  - apply H1. reflexivity.
  - apply H2. reflexivity.
Defined.


(* ================================================================== *)
(** * Synchronisation of the target network                            *)
(* ================================================================== *)

Lemma shape_eqb_refl (sh : list Z) : shape_eqb sh sh = true.
Proof. unfold shape_eqb. destruct (list_eq_dec Z.eq_dec sh sh); congruence. Qed.

Lemma assign_params_same_shapes (params values : list Array) :
  same_shapes params values ->
  assign_params params values = (Ok tt, values).
Proof.
  unfold same_shapes. revert values.
  induction params as [|p ps IH]; intros [|v vs] H; try discriminate.
  - reflexivity.
  - simpl in *. inversion H as [[H1 H2]].
    rewrite H1, shape_eqb_refl, (IH _ H2). reflexivity.
Qed.

Lemma set_all_param_values_same_shapes (params values : list Array) :
  same_shapes params values ->
  set_all_param_values params values = (Ok tt, values).
Proof.
  intros H. unfold set_all_param_values.
  pose proof (f_equal (@List.length _) H) as L. rewrite !length_map in L.
  rewrite L, Nat.eqb_refl. now apply assign_params_same_shapes.
Qed.

Lemma array_eqb_refl (a : Array) : array_eqb a a = true.
Proof.
  unfold array_eqb. rewrite shape_eqb_refl, Nat.eqb_refl. simpl.
  induction (data a) as [|x xs IH]; [reflexivity|].
  simpl. rewrite IH, andb_true_r. apply Qeq_bool_iff. reflexivity.
Qed.

Lemma params_eqb_refl (p : list Array) : params_eqb p p = true.
Proof.
  unfold params_eqb. rewrite Nat.eqb_refl. simpl.
  induction p as [|a p IH]; [reflexivity|].
  simpl. now rewrite array_eqb_refl, IH.
Qed.

Lemma params_eqb_false_neq (p q : list Array) :
  params_eqb p q = false -> p <> q.
Proof.
  intros H Heq. subst q. rewrite params_eqb_refl in H. discriminate.
Qed.

Section SyncFacts.

Variable E : Engine.

Lemma reset_target_network_same_shapes (s : Estimator E) :
  same_shapes (target s) (live s) ->
  reset_target_network E s = (Ok tt, set_target (live s) s).
Proof.
  intros H. unfold reset_target_network.
  now rewrite (set_all_param_values_same_shapes _ _ H).
Qed.

(** One call of [train] on an estimator whose two Parameter Sets have
    the same shapes: the counter, the target, and what may have happened
    to the live parameters. *)
Lemma train_step (b : Batch) (s : Estimator E) :
  freeze_interval (config s) <> 0%Z ->
  same_shapes (target s) (live s) ->
  let s' := snd (train_batch E b s) in
  let sync := (update_counter s mod freeze_interval (config s) =? 0)%Z in
  update_counter s' = (update_counter s + 1)%Z
  /\ config s' = config s
  /\ updates s' = updates s
  /\ buffers s' = bound b
  /\ target s' = (if sync then live s else target s)
  /\ ((is_ok (fst (train_batch E b s)) = false
       /\ live s' = live s /\ opt_state s' = opt_state s)
      \/ (is_ok (fst (train_batch E b s)) = true
          /\ exists loss r,
               updates s loss (live s) (opt_state s) = Ok r
               /\ live s' = fst r /\ opt_state s' = snd r)).
Proof.
  intros Hk Hsh. cbv zeta. rewrite train_spec. unfold py_mod.
  destruct (Z.eqb_spec (freeze_interval (config s)) 0); [contradiction|].
  destruct (update_counter s mod freeze_interval (config s) =? 0)%Z.
  - rewrite (reset_target_network_same_shapes s Hsh), _train_spec.
    destruct (formulate_loss E _ _) as [g|e]; cbn;
      [|repeat split; left; repeat split].
    destruct (reshape_grad _ _); cbn;
      [|repeat split; left; repeat split].
    match goal with
    | |- context [updates s ?l (live s) (opt_state s)] =>
        destruct (updates s l (live s) (opt_state s)) as [r|e] eqn:Hu
    end; cbn.
    + repeat split. right. split; [reflexivity|].
      eexists. exists r. split; [exact Hu|]. split; reflexivity.
    + repeat split. left. repeat split.
  - rewrite _train_spec.
    destruct (formulate_loss E _ _) as [g|e]; cbn;
      [|repeat split; left; repeat split].
    destruct (reshape_grad _ _); cbn;
      [|repeat split; left; repeat split].
    match goal with
    | |- context [updates s ?l (live s) (opt_state s)] =>
        destruct (updates s l (live s) (opt_state s)) as [r|e] eqn:Hu
    end; cbn.
    + repeat split. right. split; [reflexivity|].
      eexists. exists r. split; [exact Hu|]. split; reflexivity.
    + repeat split. left. repeat split.
Qed.

Lemma train_step_shapes (b : Batch) (s : Estimator E) :
  freeze_interval (config s) <> 0%Z ->
  same_shapes (target s) (live s) ->
  keeps_shapes s ->
  let s' := snd (train_batch E b s) in
  same_shapes (target s') (live s') /\ keeps_shapes s'.
Proof.
  intros Hk Hsh Hkeep.
  destruct (train_step b s Hk Hsh) as (_ & _ & Hu & _ & Ht & Hl).
  cbv zeta in *. split.
  - unfold same_shapes in *.
    assert (map shape (live (snd (train_batch E b s)))
            = map shape (live s)) as ->.
    { destruct Hl as [(_ & -> & _)|(_ & loss & r & Hr & -> & _)];
        [reflexivity|].
      exact (Hkeep loss _ _ r Hr). }
    rewrite Ht. destruct (_ =? 0)%Z; [reflexivity|assumption].
  - unfold keeps_shapes in *. rewrite Hu. exact Hkeep.
Qed.

Lemma nth_train_calls_step (s d : Estimator E) (bs : list Batch)
    (db : Batch) (i : nat) :
  (i < List.length bs)%nat ->
  nth (S i) (train_calls E s bs) d
  = snd (train_batch E (nth i bs db) (nth i (train_calls E s bs) d)).
Proof.
  revert s i. induction bs as [|b bs IH]; intros s i Hi; [simpl in Hi; lia|].
  destruct i as [|i].
  - simpl. destruct bs; reflexivity.
  - change (nth (S (S i)) (train_calls E s (b :: bs)) d)
      with (nth (S i) (train_calls E (snd (train_batch E b s)) bs) d).
    rewrite IH by (simpl in Hi; lia). reflexivity.
Qed.

(** Along a run of training calls from a fresh counter, the state before
    call [i] has counted [i] calls and keeps the configuration and the
    shapes. *)
Lemma train_calls_invariant (s0 : Estimator E) (bs : list Batch) :
  freeze_interval (config s0) <> 0%Z ->
  update_counter s0 = 0%Z ->
  same_shapes (target s0) (live s0) ->
  keeps_shapes s0 ->
  forall i, (i <= List.length bs)%nat ->
    let s := nth i (train_calls E s0 bs) s0 in
    update_counter s = Z.of_nat i
    /\ config s = config s0
    /\ same_shapes (target s) (live s)
    /\ keeps_shapes s.
Proof.
  intros Hk Hc Hsh Hkeep i. induction i as [|i IH]; intros Hi; cbv zeta.
  - destruct bs; simpl; repeat split; assumption.
  - destruct IH as (Hci & Hcf & Hshi & Hki); [lia|].
    rewrite (nth_train_calls_step s0 s0 bs
               {| b_states := []; b_actions := []; b_rewards := [];
                  b_next_states := []; b_terminals := [] |} i) by lia.
    set (s := nth i (train_calls E s0 bs) s0) in *.
    set (b := nth i bs _).
    assert (freeze_interval (config s) <> 0%Z) as Hks by now rewrite Hcf.
    destruct (train_step b s Hks Hshi) as (H1 & H2 & _).
    destruct (train_step_shapes b s Hks Hshi Hki) as (H3 & H4).
    cbv zeta in *. repeat split; try assumption.
    + rewrite H1, Hci. lia.
    + congruence.
Qed.

End SyncFacts.

Local Open Scope Z_scope.

Section SyncTheorems.

Variable E : Engine.

(** C1, as the code has it. Along a run of training calls from a fresh
    counter, with a positive freeze interval [k], call number [i] finds
    the counter at [i]; when [i mod k = 0] it leaves the target equal to
    the live parameters as they stood when the call began, before the
    update of this call; on every other call it leaves the target as it
    found it; so after call [i] the target is the live Parameter Set
    from the start of the last call whose number is a multiple of [k]. *)
Theorem target_follows_live_at_sync_call_start (s0 : Estimator E)
    (bs : list Batch) (k : Z) :
  freeze_interval (config s0) = k ->
  0 < k ->
  update_counter s0 = 0%Z ->
  same_shapes (target s0) (live s0) ->
  keeps_shapes s0 ->
  forall i, (i < List.length bs)%nat ->
    let trace := train_calls E s0 bs in
    let before := nth i trace s0 in
    let after := nth (S i) trace s0 in
    update_counter before = Z.of_nat i
    /\ (Z.of_nat i mod k = 0 -> target after = live before)
    /\ (Z.of_nat i mod k <> 0 -> target after = target before)
    /\ target after
       = live (nth (Z.to_nat (k * (Z.of_nat i / k))) trace s0).
Proof.
  intros Hk Hpos Hc Hsh Hkeep.
  assert (freeze_interval (config s0) <> 0%Z) as Hnz by lia.
  pose proof (train_calls_invariant E s0 bs Hnz Hc Hsh Hkeep) as Inv.
  assert (forall i, (i < List.length bs)%nat ->
            let before := nth i (train_calls E s0 bs) s0 in
            let after := nth (S i) (train_calls E s0 bs) s0 in
            update_counter before = Z.of_nat i
            /\ target after
               = (if (Z.of_nat i mod k =? 0)%Z then live before
                  else target before)) as Step.
  { intros i Hi. cbv zeta.
    destruct (Inv i) as (Hci & Hcf & Hshi & _); [lia|]. cbv zeta in *.
    split; [assumption|].
    rewrite (nth_train_calls_step E s0 s0 bs
               {| b_states := []; b_actions := []; b_rewards := [];
                  b_next_states := []; b_terminals := [] |} i) by lia.
    set (s := nth i (train_calls E s0 bs) s0) in *.
    assert (freeze_interval (config s) <> 0%Z) as Hks by now rewrite Hcf.
    destruct (train_step E (nth i bs
               {| b_states := []; b_actions := []; b_rewards := [];
                  b_next_states := []; b_terminals := [] |}) s Hks Hshi)
      as (_ & _ & _ & _ & Ht & _).
    cbv zeta in Ht. rewrite Ht, Hcf, Hk, Hci. reflexivity. }
  intros i. induction i as [|i IH]; intros Hi; cbv zeta.
  - destruct (Step 0%nat Hi) as (H1 & H2). cbv zeta in *.
    rewrite Z.mod_0_l in * by lia. simpl in H2.
    repeat split; try assumption; try (intros; assumption || lia).
    rewrite Z.div_0_l, Z.mul_0_r by lia. exact H2.
  - destruct (Step (S i) Hi) as (H1 & H2). cbv zeta in *.
    destruct (Z.eqb_spec (Z.of_nat (S i) mod k) 0) as [He|Hne].
    + repeat split; try assumption; try (intros; assumption || lia).
      rewrite H2. f_equal. f_equal.
      pose proof (Z.div_mod (Z.of_nat (S i)) k) as D. lia.
    + repeat split; try assumption; try (intros; assumption || lia).
      rewrite H2. destruct IH as (_ & _ & _ & IH4); [lia|].
      rewrite IH4. f_equal. f_equal. f_equal. f_equal.
      pose proof (Z.div_mod (Z.of_nat (S i)) k) as D.
      pose proof (Z.mod_pos_bound (Z.of_nat (S i)) k Hpos) as B.
      symmetry. apply (Z.div_unique_pos _ _ _ (Z.of_nat (S i) mod k - 1));
        lia.
Qed.

End SyncTheorems.

(* ------------------------------------------------------------------ *)
(** ** The reference engine keeps shapes                               *)
(* ------------------------------------------------------------------ *)

Lemma ref_zip_arrays_shapes (f : Q -> Q -> Q) (ps : list Array)
    (gs : list (list Q)) :
  map shape (Ref.zip_arrays f ps gs) = map shape ps.
Proof.
  revert gs. induction ps as [|p ps IH]; intros gs; [reflexivity|].
  simpl. now rewrite IH.
Qed.

Lemma ref_sgd_nesterov_shapes (loss : Loss) (lr : Q) (p : list Array)
    (o : list (list Q)) (r : list Array * list (list Q)) :
  Ref.apply_nesterov_momentum (Ref.sgd loss lr) p o = Ok r ->
  same_shapes (fst r) p.
Proof.
  unfold same_shapes, Ref.apply_nesterov_momentum, Ref.sgd.
  destruct (loss p) as [v|e]; cbn [rbind]; [|discriminate].
  intros H. inversion H; subst. cbn [fst].
  now rewrite !ref_zip_arrays_shapes.
Qed.

Lemma example_network_keeps_shapes : keeps_shapes Example.network.
Proof.
  intros loss p o r.
  change (updates Example.network loss p o)
    with (Ref.apply_nesterov_momentum (Ref.sgd loss (1 # 10)) p o).
  apply ref_sgd_nesterov_shapes.
Qed.

(** Three calls on the example network, which freezes for 2 calls: call
    2 finds the counter at 2 and leaves the target equal to the live
    parameters it started from. *)
Lemma target_follows_live_at_sync_call_start_witness :
  let trace :=
    train_calls Ref.engine Example.network
      [Example.batch; Example.batch; Example.batch] in
  update_counter (nth 2 trace Example.network) = 2
  /\ target (nth 3 trace Example.network)
     = live (nth 2 trace Example.network).
Proof.
  destruct (target_follows_live_at_sync_call_start Ref.engine
              Example.network
              [Example.batch; Example.batch; Example.batch] 2
              eq_refl eq_refl eq_refl eq_refl
              example_network_keeps_shapes 2%nat)
    as (H1 & H2 & _); [simpl; lia|].
  cbv zeta in *. split; [exact H1|]. apply H2. reflexivity.
Defined.

(** The first call on the example network is call 0, a synchronising
    call, and it succeeds; after it the live parameters have moved away
    from the target, which holds the values they had before the call. *)
Lemma sync_call_leaves_live_ahead_of_target :
  let s0 := Example.network in
  let r := train_batch Ref.engine Example.batch s0 in
  update_counter s0 mod freeze_interval (config s0) = 0
  /\ is_ok (fst r) = true
  /\ target (snd r) = live s0
  /\ params_eqb (live (snd r)) (target (snd r)) = false
  /\ live (snd r) <> target (snd r).
Proof.
  cbv zeta.
  assert (params_eqb
            (live (snd (train_batch Ref.engine Example.batch
                          Example.network)))
            (target (snd (train_batch Ref.engine Example.batch
                            Example.network))) = false) as Hne.
  { vm_compute. reflexivity. }
  split; [vm_compute; reflexivity|].
  split; [vm_compute; reflexivity|].
  split; [vm_compute; reflexivity|].
  split; [exact Hne|].
  apply params_eqb_false_neq. exact Hne.
Qed.

(* ================================================================== *)
(** * Errors, accessors and inference                                  *)
(* ================================================================== *)






(** Broadcasting in [states[0] = state]. *)
Lemma chunks_concat (size m : nat) (d : list Q) :
  List.length d = (m * size)%nat ->
  List.concat (map (fun k => firstn size (skipn (k * size) d)) (seq 0 m))
  = d.
Proof.
  revert d. induction m as [|m IH]; intros d Hd.
  - destruct d; [reflexivity|discriminate].
  - change (seq 0 (S m)) with (0%nat :: seq 1 m).
    cbn [map List.concat]. rewrite <- seq_shift, map_map.
    change (0 * size)%nat with 0%nat. cbn [skipn].
    transitivity (firstn size d ++ skipn size d); [|apply firstn_skipn].
    f_equal.
    transitivity
      (List.concat
         (map (fun k => firstn size (skipn (k * size) (skipn size d)))
              (seq 0 m))).
    + f_equal. apply map_ext. intros k. rewrite skipn_skipn.
      f_equal. f_equal. simpl. lia.
    + apply IH. rewrite length_skipn. simpl in Hd. lia.
Qed.

Lemma broadcast_data_same (sh : list nat) (d : list Q) :
  List.length d = fold_right Nat.mul 1%nat sh ->
  broadcast_data sh sh d = d.
Proof.
  revert d. induction sh as [|m sh IH]; intros d Hd; [reflexivity|].
  cbn [broadcast_data]. rewrite Nat.eqb_refl. cbv zeta.
  rewrite flat_map_concat_map.
  transitivity
    (List.concat
       (map (fun k => firstn (fold_right Nat.mul 1%nat sh)
                        (skipn (k * fold_right Nat.mul 1%nat sh) d))
            (seq 0 m))); [|apply chunks_concat; exact Hd].
  f_equal. apply map_ext_in. intros k Hk. apply in_seq in Hk.
  apply IH. rewrite length_firstn, length_skipn. simpl in Hd. nia.
Qed.

Lemma prod_shape_to_nat (sh : list Z) :
  Forall (fun d => 0 <= d) sh ->
  fold_right Nat.mul 1%nat (map Z.to_nat sh) = Z.to_nat (prod_shape sh).
Proof.
  induction 1 as [|d sh Hd Hsh IH]; [reflexivity|].
  cbn [map fold_right prod_shape]. rewrite IH.
  assert (0 <= prod_shape sh) as Hp.
  { clear IH. induction Hsh as [|x l Hx _ IHl]; cbn; [lia|].
    apply Z.mul_nonneg_nonneg; assumption. }
  fold (prod_shape sh). now rewrite Z2Nat.inj_mul.
Qed.

Lemma broadcastable_refl (sh : list Z) : broadcastable sh sh = true.
Proof.
  unfold broadcastable. induction sh as [|d sh IH]; [reflexivity|].
  cbn. now rewrite Z.eqb_refl, IH.
Qed.

(** A state whose shape is the shape of the row, possibly without
    leading axes of length 1, is stored as it is. *)
Lemma np_broadcast_to_same (row_shape : list Z) (a : Array) :
  align (shape a) row_shape = Some row_shape ->
  Forall (fun d => 0 <= d) row_shape ->
  List.length (data a) = Z.to_nat (prod_shape row_shape) ->
  np_broadcast_to row_shape a = Ok (data a).
Proof.
  intros Ha Hpos Hlen. unfold np_broadcast_to.
  rewrite Ha, broadcastable_refl, broadcast_data_same; [reflexivity|].
  now rewrite prod_shape_to_nat.
Qed.

Lemma concat_repeat_singleton {A} (x : A) (n : nat) :
  List.concat (repeat [x] n) = repeat x n.
Proof.
  induction n as [|n IH]; [reflexivity|]. simpl. now rewrite IH.
Qed.

(** A one-dimensional state on a one-dimensional row: equal lengths, or
    one number spread over the row, or [ValueError]. *)
Lemma np_broadcast_to_vector (d : Z) (state : list Q) :
  0 <= d ->
  np_broadcast_to [d] (vector state)
  = if Nat.eqb (List.length state) (Z.to_nat d) then Ok state
    else match state with
         | [x] => Ok (repeat x (Z.to_nat d))
         | _ => Raise ValueError
         end.
Proof.
  intros Hd. unfold np_broadcast_to, vector, align, broadcastable.
  cbn [shape data List.length Nat.ltb Nat.leb Nat.sub repeat app combine
       forallb fst snd map].
  destruct (Nat.eqb_spec (List.length state) (Z.to_nat d)) as [He|Hne].
  - assert (Z.of_nat (List.length state) = d) as Hz by lia.
    rewrite Hz, Z.eqb_refl. cbn [orb andb]. f_equal.
    rewrite <- Hz, Nat2Z.id. apply (broadcast_data_same [_]).
    simpl. lia.
  - destruct (Z.eqb_spec (Z.of_nat (List.length state)) d) as [Hz|_];
      [lia|].
    destruct state as [|x [|y state]].
    + reflexivity.
    + cbn. f_equal.
      destruct (Nat.eqb_spec (Pos.to_nat 1) (Z.to_nat d)) as [H1|_].
      * simpl in Hne. change (Pos.to_nat 1) with 1%nat in H1. lia.
      * apply concat_repeat_singleton.
    + destruct (Z.eqb_spec (Z.of_nat (List.length (x :: y :: state))) 1)
        as [H1|_]; [|reflexivity].
      rewrite !length_cons in H1. lia.
Qed.

Section ErrorFacts.

Variable E : Engine.

(** [set_params], step by step. *)
Lemma set_params_spec (params : list Array) (s : Estimator E) :
  set_params E params s
  = match set_all_param_values (live s) params with
    | (Raise e, l) => (Raise e, set_live l s)
    | (Ok _, l) => reset_target_network E (set_live l s)
    end.
Proof.
  unfold set_params, bind.
  destruct (set_all_param_values (live s) params) as [[u|e] l];
    reflexivity.
Qed.


(** [get_q_values], step by step. *)
Lemma get_q_values_nd_spec (state : Array) (s : Estimator E) :
  get_q_values_nd E state s
  = match np_zeros_batch (states_shape (config s)) with
    | Raise e => (Raise e, s)
    | Ok zeros =>
        match np_set_row0 (tl (states_shape (config s))) zeros state with
        | Raise e => (Raise e, s)
        | Ok states =>
            let s1 := set_buffers
                        (set_states_shared states (buffers s)) s in
            match get_output E (l_out s) (live s) states with
            | Raise e => (Raise e, s1)
            | Ok q_values => (np_get q_values 0, s1)
            end
        end
    end.
Proof.
  unfold get_q_values_nd, bind, get, lift, modify, _get_q_values.
  destruct (np_zeros_batch _) as [zeros|e]; [|reflexivity].
  destruct (np_set_row0 _ zeros state) as [states|e]; [|reflexivity].
  cbn. destruct (get_output E _ _ states) as [q|e]; reflexivity.
Qed.

Lemma get_q_values_spec (state : list Q) (s : Estimator E) :
  get_q_values E state s
  = match np_zeros_batch (states_shape (config s)) with
    | Raise e => (Raise e, s)
    | Ok zeros =>
        match np_set_row0 (tl (states_shape (config s))) zeros
                (vector state) with
        | Raise e => (Raise e, s)
        | Ok states =>
            let s1 := set_buffers
                        (set_states_shared states (buffers s)) s in
            match get_output E (l_out s) (live s) states with
            | Raise e => (Raise e, s1)
            | Ok q_values => (np_get q_values 0, s1)
            end
        end
    end.
Proof. apply get_q_values_nd_spec. Qed.

(** C10, as the code has it. [get_q_values], for a state array of any
    shape, leaves the live and the target parameters, the counter, the
    accumulators, the configuration and four of the five buffers as they
    were; when it returns, [states_shared] holds the state, broadcast to
    the shape of a row, in row 0 above [batch_size - 1] rows of zeros (a
    state of the shape of the row is stored as it is), and the result is
    row 0 of the output of the live network on that batch.  [get_params]
    returns the live parameters and [finish_episode] returns, both
    without changing the estimator.  [reset_target_network], which is a
    method like the others, does modify a Parameter Set: it leaves the
    live parameters, the counter, the accumulators and the buffers as
    they were and overwrites the target with the live values. *)
Theorem inference_leaves_parameters_alone (state : Array)
    (s : Estimator E) :
  let r := get_q_values_nd E state s in
  let rows := Z.to_nat (hd 1 (states_shape (config s))) in
  let row_shape := tl (states_shape (config s)) in
  let width := Z.to_nat (prod_shape row_shape) in
  let r' := reset_target_network E s in
  live (snd r) = live s
  /\ target (snd r) = target s
  /\ update_counter (snd r) = update_counter s
  /\ opt_state (snd r) = opt_state s
  /\ config (snd r) = config s
  /\ next_states_shared (buffers (snd r)) = next_states_shared (buffers s)
  /\ rewards_shared (buffers (snd r)) = rewards_shared (buffers s)
  /\ actions_shared (buffers (snd r)) = actions_shared (buffers s)
  /\ terminals_shared (buffers (snd r)) = terminals_shared (buffers s)
  /\ (forall q, fst r = Ok q ->
        exists row out,
          np_broadcast_to row_shape state = Ok row
          /\ (align (shape state) row_shape = Some row_shape ->
              List.length (data state) = width -> row = data state)
          /\ states_shared (buffers (snd r))
             = row :: repeat (repeat 0%Q width) (rows - 1)
          /\ get_output E (l_out s) (live s)
               (row :: repeat (repeat 0%Q width) (rows - 1)) = Ok out
          /\ nth_error out 0 = Some q)
  /\ get_params E s = (Ok (live s), s)
  /\ finish_episode E s = (Ok tt, s)
  /\ live (snd r') = live s
  /\ update_counter (snd r') = update_counter s
  /\ opt_state (snd r') = opt_state s
  /\ buffers (snd r') = buffers s
  /\ (same_shapes (target s) (live s) ->
      r' = (Ok tt, set_target (live s) s)).
Proof.
  cbv zeta.
  assert (live (snd (reset_target_network E s)) = live s
          /\ update_counter (snd (reset_target_network E s))
             = update_counter s
          /\ opt_state (snd (reset_target_network E s)) = opt_state s
          /\ buffers (snd (reset_target_network E s)) = buffers s
          /\ (same_shapes (target s) (live s) ->
              reset_target_network E s = (Ok tt, set_target (live s) s)))
    as Hreset.
  { split; [|split; [|split; [|split]]];
      try (unfold reset_target_network;
           destruct (set_all_param_values (target s) (live s));
           reflexivity).
    apply reset_target_network_same_shapes. }
  rewrite get_q_values_nd_spec.
  destruct (np_zeros_batch (states_shape (config s))) as [zeros|e] eqn:Hz.
  2:{ cbn. do 9 (split; [reflexivity|]).
      split; [intros q Hq; discriminate|].
      split; [reflexivity|]. split; [reflexivity|]. exact Hreset. }
  destruct (np_set_row0 _ zeros state) as [states|e] eqn:Hr.
  2:{ cbn. do 9 (split; [reflexivity|]).
      split; [intros q Hq; discriminate|].
      split; [reflexivity|]. split; [reflexivity|]. exact Hreset. }
  cbv zeta.
  destruct (get_output E (l_out s) (live s) states) as [out|e] eqn:Ho.
  2:{ cbn. do 9 (split; [reflexivity|]).
      split; [intros q Hq; discriminate|].
      split; [reflexivity|]. split; [reflexivity|]. exact Hreset. }
  cbn. do 9 (split; [reflexivity|]).
  split; [|split; [reflexivity|]; split; [reflexivity|]; exact Hreset].
  intros q Hq.
  unfold np_zeros_batch in Hz.
  destruct (existsb _ _) eqn:Hneg; [discriminate|].
  inversion Hz; subst zeros; clear Hz.
  unfold np_set_row0 in Hr.
  destruct (Z.to_nat (hd 1 (states_shape (config s)))) as [|n] eqn:Hn;
    [discriminate|].
  cbn [repeat] in Hr.
  destruct (np_broadcast_to _ state) as [row|] eqn:Hb; [|discriminate].
  cbn [rbind] in Hr. inversion Hr; subst states; clear Hr.
  replace (S n - 1)%nat with n by lia.
  exists row, out. split; [reflexivity|]. split.
  - intros Ha Hlen.
    assert (Forall (fun d => 0 <= d) (tl (states_shape (config s))))
      as Hpos.
    { apply Forall_forall. intros d Hd.
      destruct (Z.ltb_spec d 0) as [Hlt|]; [|assumption].
      assert (existsb (fun d => d <? 0) (states_shape (config s)) = true)
        as Hex; [|congruence].
      apply existsb_exists. exists d. split.
      - destruct (states_shape (config s)); [destruct Hd|now right].
      - now apply Z.ltb_lt. }
    rewrite (np_broadcast_to_same _ _ Ha Hpos Hlen) in Hb.
    now inversion Hb.
  - split; [reflexivity|]. split; [exact Ho|].
    exact (np_get_nat out 0 q Hq).
Qed.

End ErrorFacts.



(** A state of the input shape (1, 1) on the convolutional example. *)
Lemma inference_leaves_parameters_alone_witness :
  let state := {| shape := [1; 1]; data := [3%Q] |} in
  let r := get_q_values_nd Ref.engine state Example.conv_network in
  is_ok (fst r) = true
  /\ live (snd r) = live Example.conv_network
  /\ target (snd r) = target Example.conv_network
  /\ update_counter (snd r) = update_counter Example.conv_network
  /\ states_shared (buffers (snd r)) = [[3%Q]; [0%Q]].
Proof.
  cbv zeta.
  destruct (inference_leaves_parameters_alone Ref.engine
              {| shape := [1; 1]; data := [3%Q] |} Example.conv_network)
    as (H1 & H2 & H3 & _ & _ & _ & _ & _ & _ & H10 & _).
  cbv zeta in *.
  destruct (fst (get_q_values_nd Ref.engine
                   {| shape := [1; 1]; data := [3%Q] |}
                   Example.conv_network)) as [q|e] eqn:Hq;
    [|vm_compute in Hq; discriminate].
  split; [reflexivity|].
  split; [exact H1|]. split; [exact H2|]. split; [exact H3|].
  destruct (H10 q eq_refl) as (row & out & _ & Hrow & Hs & _).
  rewrite Hs, (Hrow eq_refl eq_refl). reflexivity.
Defined.

(** After one training call the target of the example network lags
    behind its live parameters; [reset_target_network], which both
    classes define, then overwrites the target. *)
Lemma reset_target_network_modifies_the_target :
  let s1 := snd (train_batch Ref.engine Example.batch Example.network) in
  let r := call Ref.engine "reset_target_network"
             (reset_target_network Ref.engine) s1 in
  existsb (String.eqb "reset_target_network") (methods QNetworkClass)
  = true
  /\ existsb (String.eqb "reset_target_network")
       (methods ConvQNetworkClass) = true
  /\ fst r = Ok tt
  /\ params_eqb (target (snd r)) (target s1) = false
  /\ target (snd r) <> target s1.
Proof.
  cbv zeta.
  assert (params_eqb
            (target (snd (call Ref.engine "reset_target_network"
                            (reset_target_network Ref.engine)
                            (snd (train_batch Ref.engine Example.batch
                                    Example.network)))))
            (target (snd (train_batch Ref.engine Example.batch
                            Example.network))) = false) as Hne.
  { vm_compute. reflexivity. }
  split; [reflexivity|]. split; [reflexivity|].
  split; [vm_compute; reflexivity|].
  split; [exact Hne|].
  apply params_eqb_false_neq. exact Hne.
Qed.

(* ================================================================== *)
(** * Saving and restoring parameters                                  *)
(* ================================================================== *)

Section PersistenceFacts.

Variable E : Engine.

Lemma call_defined {A} (name : string) (body : M (Estimator E) A)
    (s : Estimator E) :
  existsb (String.eqb name) (methods (cls (config s))) = true ->
  call E name body s = body s.
Proof. intros H. unfold call. now rewrite H. Qed.

Lemma call_undefined {A} (name : string) (body : M (Estimator E) A)
    (s : Estimator E) :
  existsb (String.eqb name) (methods (cls (config s))) = false ->
  call E name body s = (Raise AttributeError, s).
Proof. intros H. unfold call. now rewrite H. Qed.

(** C7 on [QNetwork]. [set_params] with an argument of the shapes of the
    live parameters installs it as the live and as the target
    Parameter Set; [set_params(get_params())] therefore keeps the live
    parameters and leaves the target equal to them. *)
Lemma dense_set_params_round_trip (params : list Array)
    (s : Estimator E) :
  cls (config s) = QNetworkClass ->
  same_shapes (target s) (live s) ->
  (same_shapes (live s) params ->
     fst (call E "set_params" (set_params E params) s) = Ok tt
     /\ live (snd (call E "set_params" (set_params E params) s)) = params
     /\ target (snd (call E "set_params" (set_params E params) s))
        = params)
  /\ fst (set_params_of_get_params E s) = Ok tt
  /\ live (snd (set_params_of_get_params E s)) = live s
  /\ target (snd (set_params_of_get_params E s)) = live s
  /\ update_counter (snd (set_params_of_get_params E s))
     = update_counter s.
Proof.
  intros Hc Hsh.
  assert (forall p, same_shapes (live s) p ->
            call E "set_params" (set_params E p) s
            = (Ok tt, set_target p (set_live p s))) as Hset.
  { intros p Hp. rewrite call_defined by (rewrite Hc; reflexivity).
    rewrite set_params_spec, (set_all_param_values_same_shapes _ _ Hp).
    rewrite reset_target_network_same_shapes; [reflexivity|].
    cbn. unfold same_shapes in *. congruence. }
  split.
  - intros Hp. rewrite (Hset _ Hp). repeat split.
  - unfold set_params_of_get_params, bind.
    rewrite call_defined by (rewrite Hc; reflexivity).
    unfold get_params. rewrite (Hset (live s) eq_refl). repeat split.
Qed.

(** C7 on [ConvQNetwork]: the class defines [get_params] but no
    [set_params], so the round trip raises [AttributeError] and changes
    nothing. *)
Theorem conv_set_params_is_missing (s : Estimator E) :
  cls (config s) = ConvQNetworkClass ->
  fst (call E "get_params" (get_params E) s) = Ok (live s)
  /\ (forall params,
        call E "set_params" (set_params E params) s
        = (Raise AttributeError, s))
  /\ set_params_of_get_params E s = (Raise AttributeError, s).
Proof.
  intros Hc. split; [|split].
  - rewrite call_defined by (rewrite Hc; reflexivity). reflexivity.
  - intros params. apply call_undefined. rewrite Hc. reflexivity.
  - unfold set_params_of_get_params, bind.
    rewrite call_defined by (rewrite Hc; reflexivity).
    unfold get_params. apply call_undefined. rewrite Hc. reflexivity.
Qed.

End PersistenceFacts.

Lemma conv_set_params_is_missing_witness :
  set_params_of_get_params Ref.engine Example.conv_network
  = (Raise AttributeError, Example.conv_network).
Proof.
  apply (conv_set_params_is_missing Ref.engine Example.conv_network).
  reflexivity.
Defined.

Lemma dense_set_params_round_trip_witness :
  fst (set_params_of_get_params Ref.engine Example.network) = Ok tt
  /\ live (snd (set_params_of_get_params Ref.engine Example.network))
     = live Example.network.
Proof.
  destruct (dense_set_params_round_trip Ref.engine [] Example.network)
    as (_ & H1 & H2 & _); [reflexivity|reflexivity|].
  split; assumption.
Defined.

(* ================================================================== *)
(** * Construction                                                     *)
(* ================================================================== *)

Section ConstructionFacts.

Variable E : Engine.

Lemma new_layer_ok (inc : Net) (mk : Layer -> Layer) (r : Rng E) :
  net_ok inc ->
  get_all_params (mk (fst inc))
  = get_all_params (fst inc) ++ layer_params (mk (fst inc)) ->
  net_ok (fst (new_layer E inc mk r)).
Proof.
  unfold net_ok. intros Hinc Hmk.
  rewrite new_layer_layer, new_layer_values, Hmk, !map_app, Hinc.
  now rewrite sample_all_shapes.
Qed.

Lemma hidden_loop_ok (nh : Z) (l_in : Net) (idxs : list Z)
    (st : Net * Rng E) :
  net_ok l_in -> net_ok (fst st) ->
  net_ok (fst (hidden_loop E nh l_in idxs st)).
Proof.
  intros Hin. revert st. induction idxs as [|i idxs IH]; intros st Hst.
  - exact Hst.
  - simpl. apply IH. now apply new_layer_ok.
Qed.

Lemma hidden_loop_layer_any (nh : Z) (l_in : Net) (idxs : list Z)
    (r1 r2 : Rng E) :
  fst (fst (hidden_loop E nh l_in idxs (l_in, r1)))
  = fst (fst (hidden_loop E nh l_in idxs (l_in, r2))).
Proof.
  destruct idxs as [|i idxs]; [reflexivity|].
  now rewrite !hidden_loop_layer by discriminate.
Qed.

(** Both builders: the network has the shapes of its layers, and its
    layers do not depend on the random source. *)
Lemma build_network_ok (nhl nh inp out bs : Z) (r : Rng E) :
  net_ok (fst (build_network E nhl nh inp out bs r)).
Proof.
  unfold build_network. cbv zeta.
  match goal with
  | |- context [hidden_loop E ?a ?b ?c ?d] =>
      pose proof (hidden_loop_ok a b c d eq_refl eq_refl) as H;
      destruct (hidden_loop E a b c d) as [l_hid r1]
  end.
  apply new_layer_ok; [exact H|reflexivity].
Qed.

Lemma build_network_layer (nhl nh inp out bs : Z) (r1 r2 : Rng E) :
  fst (fst (build_network E nhl nh inp out bs r1))
  = fst (fst (build_network E nhl nh inp out bs r2)).
Proof.
  unfold build_network. cbv zeta.
  pose proof (hidden_loop_layer_any nh (InputLayer [bs; inp], [])
                (py_range nhl) r1 r2) as H.
  destruct (hidden_loop E nh _ _ (_, r1)) as [h1 q1].
  destruct (hidden_loop E nh _ _ (_, r2)) as [h2 q2].
  simpl in H. now rewrite !new_layer_layer, H.
Qed.

Lemma conv_build_network_ok (nh : Z) (inp : list Z) (out bs : Z)
    (r : Rng E) :
  net_ok (fst (conv_build_network E nh inp out bs r)).
Proof.
  unfold conv_build_network. cbv zeta.
  match goal with
  | |- context [new_layer E ?a ?b r] =>
      pose proof (new_layer_ok a b r eq_refl eq_refl) as H;
      destruct (new_layer E a b r) as [l_conv1 r1]
  end.
  apply new_layer_ok; [exact H|reflexivity].
Qed.

Lemma conv_build_network_layer (nh : Z) (inp : list Z) (out bs : Z)
    (r1 r2 : Rng E) :
  fst (fst (conv_build_network E nh inp out bs r1))
  = fst (fst (conv_build_network E nh inp out bs r2)).
Proof.
  unfold conv_build_network. cbv zeta.
  match goal with
  | |- context [new_layer E ?a ?b r1] =>
      pose proof (new_layer_layer E a b r1) as H1;
      pose proof (new_layer_layer E a b r2) as H2;
      destruct (new_layer E a b r1) as [c1 q1];
      destruct (new_layer E a b r2) as [c2 q2]
  end.
  simpl in H1, H2. now rewrite !new_layer_layer, H1, H2.
Qed.

Lemma new_layer_values_length (inc : Net) (mk : Layer -> Layer)
    (r : Rng E) :
  List.length (snd (fst (new_layer E inc mk r)))
  = (List.length (snd inc)
     + List.length (layer_params (mk (fst inc))))%nat.
Proof.
  rewrite new_layer_values, length_app.
  pose proof (f_equal (@List.length _)
                (sample_all_shapes E (layer_params (mk (fst inc))) r)) as L.
  rewrite !length_map in L. now rewrite L.
Qed.

(** What [self.build_network(...)] does to the object under
    construction, for either class. *)
Lemma self_build_network_spec (s : Self E) :
  exists net r',
    self_build_network E s
    = (Ok net,
       {| s_config := s_config E s; s_rng := r';
          s_l_out := s_l_out E s; s_next_l_out := s_next_l_out E s;
          s_buffers := s_buffers E s; s_train := s_train E s;
          s_update_counter := s_update_counter E s |})
    /\ net_ok net
    /\ (2 <= List.length (snd net))%nat
    /\ forall s2, s_config E s2 = s_config E s ->
         exists net2 r2,
           self_build_network E s2
           = (Ok net2,
              {| s_config := s_config E s2; s_rng := r2;
                 s_l_out := s_l_out E s2;
                 s_next_l_out := s_next_l_out E s2;
                 s_buffers := s_buffers E s2; s_train := s_train E s2;
                 s_update_counter := s_update_counter E s2 |})
           /\ fst net2 = fst net.
Proof.
  unfold self_build_network.
  destruct (cls (s_config E s)) eqn:Hc.
  - pose proof (build_network_ok
                  (num_hidden_layers (s_config E s))
                  (num_hidden (s_config E s))
                  (hd 0 (input_shape (s_config E s)))
                  (num_actions (s_config E s))
                  (batch_size (s_config E s)) (s_rng E s)) as Hok.
    destruct (build_network E _ _ _ _ _ (s_rng E s)) as [net r'] eqn:Hb.
    exists net, r'. split; [reflexivity|]. split; [exact Hok|]. split.
    + pose proof (f_equal fst Hb) as Hn. simpl in Hn. rewrite <- Hn.
      unfold build_network. cbv zeta.
      destruct (hidden_loop E _ _ _ _) as [l_hid r1].
      rewrite new_layer_values_length. simpl. lia.
    + intros s2 H2. rewrite H2, Hc.
      pose proof (build_network_layer
                    (num_hidden_layers (s_config E s))
                    (num_hidden (s_config E s))
                    (hd 0 (input_shape (s_config E s)))
                    (num_actions (s_config E s))
                    (batch_size (s_config E s)) (s_rng E s2) (s_rng E s))
        as Hl.
      rewrite Hb in Hl.
      destruct (build_network E _ _ _ _ _ (s_rng E s2)) as [net2 r2].
      exists net2, r2. split; [reflexivity|exact Hl].
  - pose proof (conv_build_network_ok
                  (num_hidden (s_config E s))
                  (input_shape (s_config E s))
                  (num_actions (s_config E s))
                  (batch_size (s_config E s)) (s_rng E s)) as Hok.
    destruct (conv_build_network E _ _ _ _ (s_rng E s)) as [net r'] eqn:Hb.
    exists net, r'. split; [reflexivity|]. split; [exact Hok|]. split.
    + pose proof (f_equal fst Hb) as Hn. simpl in Hn. rewrite <- Hn.
      unfold conv_build_network. cbv zeta.
      destruct (new_layer E _ _ (s_rng E s)) as [l_conv r1].
      rewrite new_layer_values_length. simpl. lia.
    + intros s2 H2. rewrite H2, Hc.
      pose proof (conv_build_network_layer
                    (num_hidden (s_config E s))
                    (input_shape (s_config E s))
                    (num_actions (s_config E s))
                    (batch_size (s_config E s)) (s_rng E s2) (s_rng E s))
        as Hl.
      rewrite Hb in Hl.
      destruct (conv_build_network E _ _ _ _ (s_rng E s2)) as [net2 r2].
      exists net2, r2. split; [reflexivity|exact Hl].
Qed.

End ConstructionFacts.

Lemma initialize_updates_unrecognised (E : Engine) (rule : string)
    (lr : Q) :
  recognised rule = false ->
  initialize_updates E rule lr = Raise ValueError.
Proof.
  unfold recognised, initialize_updates. simpl.
  destruct (String.eqb rule "adam"); [discriminate|].
  destruct (String.eqb rule "rmsprop"); [discriminate|].
  destruct (String.eqb rule "sgd"); [discriminate|]. reflexivity.
Qed.

Lemma initialize_updates_recognised (E : Engine) (rule : string)
    (lr : Q) :
  recognised rule = true ->
  exists u, initialize_updates E rule lr = Ok u.
Proof.
  unfold recognised, initialize_updates. simpl.
  destruct (String.eqb rule "adam"); [eauto|].
  destruct (String.eqb rule "rmsprop"); [eauto|].
  destruct (String.eqb rule "sgd"); [eauto|]. discriminate.
Qed.

Lemma allocate_buffers_raises_value_error (c : Config) (e : PyExn) :
  allocate_buffers c = Raise e -> e = ValueError.
Proof.
  unfold allocate_buffers, np_zeros_batch, np_zeros.
  destruct (existsb _ _); cbn; [congruence|].
  destruct (batch_size c <? 0); cbn; congruence.
Qed.

Lemma states_shape_head (c : Config) :
  hd 1 (states_shape c) = batch_size c.
Proof. unfold states_shape. destruct (cls c); reflexivity. Qed.

Lemma allocate_buffers_ok (c : Config) :
  Forall (fun d => 0 < d) (states_shape c) ->
  let rows := Z.to_nat (batch_size c) in
  let zeros :=
    repeat (repeat 0%Q (Z.to_nat (prod_shape (tl (states_shape c))))) rows in
  allocate_buffers c
  = Ok {| states_shared := zeros; next_states_shared := zeros;
          rewards_shared := repeat 0%Q rows;
          actions_shared := repeat 0 rows;
          terminals_shared := repeat 0 rows |}.
Proof.
  intros H. cbv zeta. unfold allocate_buffers, np_zeros_batch.
  assert (existsb (fun d => d <? 0) (states_shape c) = false) as ->.
  { induction H as [|d l Hd _ IH]; [reflexivity|]. simpl.
    destruct (Z.ltb_spec d 0); [lia|exact IH]. }
  assert (0 < batch_size c) as Hb.
  { rewrite <- states_shape_head. unfold states_shape in *.
    destruct (cls c); inversion H; assumption. }
  rewrite states_shape_head, np_zeros_pos by lia. cbn [rbind].
  now rewrite map_repeat.
Qed.

Lemma constructible_states_shape (c : Config) :
  constructible c -> Forall (fun d => 0 < d) (states_shape c).
Proof.
  intros (Hb & Hi & _). unfold states_shape.
  destruct (cls c); repeat constructor; try assumption; lia.
Qed.

Section ConstructionTheorems.

Variable E : Engine.

(** [initialize_network] up to the end of step 1: both networks are
    built and the target holds the values of the live network. *)
Lemma networks_built_and_synchronised (c : Config) (r : Rng E) :
  exists l values nl r',
    let s1 :=
      {| s_config := c; s_rng := r'; s_l_out := Some (l, values);
         s_next_l_out := Some (nl, values); s_buffers := None;
         s_train := None; s_update_counter := None |} in
    (2 <= List.length values)%nat
    /\ nl = l
    /\ net_ok (l, values)
    /\ initialize_network E (blank E c r)
       = match allocate_buffers c with
         | Raise e => (Raise e, s1)
         | Ok b =>
             let s2 :=
               {| s_config := c; s_rng := r'; s_l_out := Some (l, values);
                  s_next_l_out := Some (nl, values); s_buffers := Some b;
                  s_train := None; s_update_counter := None |} in
             match initialize_updates E (update_rule c) (learning_rate c)
             with
             | Raise e => (Raise e, s2)
             | Ok u =>
                 (Ok tt,
                  {| s_config := c; s_rng := r';
                     s_l_out := Some (l, values);
                     s_next_l_out := Some (nl, values);
                     s_buffers := Some b; s_train := Some u;
                     s_update_counter := None |})
             end
         end.
Proof.
  destruct (self_build_network_spec E (blank E c r))
    as (n1 & r1 & Hb1 & Hok1 & Hlen1 & Hagain).
  set (s1 := {| s_config := c; s_rng := r1; s_l_out := Some n1;
                s_next_l_out := None; s_buffers := None;
                s_train := None; s_update_counter := None |}).
  destruct (Hagain s1 eq_refl) as (n2 & r2 & Hb2 & Hl2).
  destruct (self_build_network_spec E s1) as (n2' & r2' & Hb2' & Hok2 & _).
  rewrite Hb2 in Hb2'. inversion Hb2'; subst n2' r2'. clear Hb2'.
  destruct n1 as [l1 v1]. destruct n2 as [l2 v2]. simpl in Hl2. subst l2.
  exists l1, v1, l1, r2. cbv zeta.
  split; [exact Hlen1|]. split; [reflexivity|]. split; [exact Hok1|].
  unfold initialize_network, bind, get.
  rewrite Hb1. unfold assign_l_out, modify. cbn [s_config s_rng s_l_out
    s_next_l_out s_buffers s_train s_update_counter blank].
  fold s1. rewrite Hb2.
  unfold assign_next_l_out, modify, self_reset_target_network.
  cbn [s_config s_rng s_l_out s_next_l_out s_buffers s_train
       s_update_counter s1 snd fst].
  rewrite set_all_param_values_same_shapes.
  2:{ unfold same_shapes. unfold net_ok in *. simpl in *. congruence. }
  cbn [s_config s_rng s_l_out s_next_l_out s_buffers s_train
       s_update_counter snd fst].
  unfold lift, assign_buffers, assign_train, modify.
  destruct (allocate_buffers c) as [b|e]; [|reflexivity].
  cbn [s_config s_rng s_l_out s_next_l_out s_buffers s_train
       s_update_counter snd fst].
  destruct (initialize_updates E (update_rule c) (learning_rate c));
    reflexivity.
Qed.

(** C6, as the code has it. With positive dimensions and an update rule
    other than "adam", "rmsprop" and "sgd" the constructor of either
    class raises [ValueError] and hands no estimator to its caller.  The
    exception is the one of [initialize_updates], in step 5 of
    [initialize_network]: when it is raised, both networks have been
    built, each with the arrays of its layers, the target has been given
    the values of the live network, and the zero-filled buffers have
    been allocated; the compiled functions and the counter have not been
    assigned. *)
Theorem unknown_update_rule_fails_after_building (c : Config)
    (r : Rng E) :
  recognised (update_rule c) = false ->
  constructible c ->
  let res := init_body E (blank E c r) in
  let rows := Z.to_nat (batch_size c) in
  let zeros :=
    repeat (repeat 0%Q (Z.to_nat (prod_shape (tl (states_shape c))))) rows in
  let b := {| states_shared := zeros; next_states_shared := zeros;
              rewards_shared := repeat 0%Q rows;
              actions_shared := repeat 0 rows;
              terminals_shared := repeat 0 rows |} in
  fst res = Raise ValueError
  /\ allocate_buffers c = Ok b
  /\ initialize_updates E (update_rule c) (learning_rate c)
     = Raise ValueError
  /\ finished E (snd res) = None
  /\ s_train E (snd res) = None
  /\ s_update_counter E (snd res) = None
  /\ s_buffers E (snd res) = Some b
  /\ exists l values,
       s_l_out E (snd res) = Some (l, values)
       /\ s_next_l_out E (snd res) = Some (l, values)
       /\ (2 <= List.length values)%nat
       /\ net_ok (l, values).
Proof.
  intros Hrule Hc. cbv zeta.
  destruct (networks_built_and_synchronised c r)
    as (l & values & nl & r' & Hlen & -> & Hok & Hinit).
  cbv zeta in Hinit. unfold init_body, bind. rewrite Hinit.
  pose proof (allocate_buffers_ok c (constructible_states_shape c Hc))
    as Hb. cbv zeta in Hb.
  rewrite (initialize_updates_unrecognised E _ _ Hrule), Hb.
  cbn. do 7 (split; [reflexivity|]).
  exists l, values. split; [reflexivity|]. split; [reflexivity|].
  split; [exact Hlen | exact Hok].
Qed.

End ConstructionTheorems.

(** [QNetwork(..., update_rule='unknown', ...)] raises once both
    Parameter Sets exist. *)
Lemma unknown_update_rule_fails_after_building_witness :
  fst Example.misconfigured = Raise ValueError
  /\ s_buffers Ref.engine (snd Example.misconfigured)
     = Some {| states_shared := [[0]; [0]]%Q;
               next_states_shared := [[0]; [0]]%Q;
               rewards_shared := [0; 0]%Q;
               actions_shared := [0; 0];
               terminals_shared := [0; 0] |}
  /\ exists l values,
       s_l_out Ref.engine (snd Example.misconfigured) = Some (l, values)
       /\ s_next_l_out Ref.engine (snd Example.misconfigured)
          = Some (l, values)
       /\ (2 <= List.length values)%nat.
Proof.
  assert (constructible (s_config Ref.engine (snd Example.misconfigured)))
    as Hc.
  { unfold constructible. cbn.
    split; [lia|]. split; [repeat constructor|].
    split; [lia|]. split; [lia|reflexivity]. }
  destruct (unknown_update_rule_fails_after_building Ref.engine
              (s_config Ref.engine (snd Example.misconfigured)) 0
              eq_refl Hc)
    as (H1 & _ & _ & _ & _ & _ & H7 & l & values & H8 & H9 & H10 & _).
  split; [exact H1|]. split; [exact H7|].
  exists l, values. split; [exact H8|]. split; [exact H9|exact H10].
Defined.

(** The claim fails on this call: when the constructor raises, the live
    Parameter Set has been created and the random source consumed. *)
Lemma misconfigured_constructor_has_built_parameters :
  fst Example.misconfigured = Raise ValueError
  /\ option_map snd (s_l_out Ref.engine (snd Example.misconfigured))
     = Some [ {| shape := [1; 2]; data := [1 # 4; 1 # 4]%Q |};
              {| shape := [2]; data := [0; 0]%Q |} ]
  /\ s_l_out Ref.engine (snd Example.misconfigured) <> None
  /\ s_rng Ref.engine (snd Example.misconfigured) = 2.
Proof.
  split; [vm_compute; reflexivity|].
  split; [vm_compute; reflexivity|].
  split; [vm_compute; discriminate|vm_compute; reflexivity].
Qed.

(* ================================================================== *)
(** * More on the state adapters                                       *)
(* ================================================================== *)

Lemma np_index_from_end (len i : Z) :
  - len <= i < 0 -> np_index len i = Ok (Z.to_nat (len + i)).
Proof.
  intros H. unfold np_index.
  destruct (Z.leb_spec 0 i); [lia|]. cbn.
  destruct (Z.leb_spec (- len) i); [|lia].
  destruct (Z.ltb_spec i 0); [|lia]. reflexivity.
Qed.

Lemma np_index_out_of_range (len i : Z) :
  i < - len \/ len <= i -> np_index len i = Raise IndexError.
Proof.
  intros H. unfold np_index.
  destruct (Z.leb_spec 0 i); destruct (Z.ltb_spec i len);
    destruct (Z.leb_spec (- len) i); destruct (Z.ltb_spec i 0);
    cbn; try reflexivity; lia.
Qed.

Lemma one_hot_at (n i : Z) :
  0 <= n ->
  np_setitem (repeat 0%Q (Z.to_nat n)) i 1%Q
  = match np_index n i with
    | Ok k => Ok (set_nth (repeat 0%Q (Z.to_nat n)) k 1%Q)
    | Raise e => Raise e
    end.
Proof.
  intros H. unfold np_setitem, zlength.
  rewrite repeat_length, Z2Nat.id by lia.
  destruct (np_index n i); reflexivity.
Qed.

(** The multi-room encoder on coordinates inside the grid: the one-hot
    vector of the row index followed by the one-hot vector of the column
    index, each of length [room_size * num_rooms], with no reduction of
    the indices. *)
Theorem multi_room_encoder_one_hot (room_size num_rooms ridx cidx : Z) :
  let n := room_size * num_rooms in
  0 <= ridx < n -> 0 <= cidx < n ->
  CoordinateTosRowColAdapter.convert_state_to_agent_format
    (CoordinateTosRowColAdapter.init room_size num_rooms) (ridx, cidx)
  = Ok (one_hot (Z.to_nat n) (Z.to_nat ridx)
        ++ one_hot (Z.to_nat n) (Z.to_nat cidx))
  /\ List.length (one_hot (Z.to_nat n) (Z.to_nat ridx)
                  ++ one_hot (Z.to_nat n) (Z.to_nat cidx))
     = Z.to_nat (2 * n).
Proof.
  intros n Hr Hc. split.
  - unfold CoordinateTosRowColAdapter.convert_state_to_agent_format,
      CoordinateTosRowColAdapter.init,
      CoordinateTosRowColAdapter.room_size,
      CoordinateTosRowColAdapter.num_rooms.
    fold n. rewrite np_zeros_pos by lia. cbn [rbind].
    rewrite !one_hot_at, !np_index_in_range by lia. cbn [rbind].
    rewrite !(set_nth_repeat_one_hot _ _ 0) by lia. reflexivity.
  - rewrite length_app, !one_hot_length. lia.
Qed.

(** The example of the docstring: room size 3, two rooms, state (4, 4). *)
Lemma multi_room_encoder_one_hot_witness :
  CoordinateTosRowColAdapter.convert_state_to_agent_format
    (CoordinateTosRowColAdapter.init 3 2) (4, 4)
  = Ok [0; 0; 0; 0; 1; 0; 0; 0; 0; 0; 1; 0]%Q.
Proof.
  destruct (multi_room_encoder_one_hot 3 2 4 4) as [H _]; [lia|lia|].
  rewrite H. reflexivity.
Defined.

(** The multi-room encoder does not reject a negative coordinate that is
    at least [- room_size * num_rooms]: numpy counts it from the end, so
    the 1 lands at index [room_size * num_rooms + coordinate]. *)
Theorem multi_room_encoder_negative_wraps
    (room_size num_rooms ridx cidx : Z) :
  let n := room_size * num_rooms in
  - n <= ridx < 0 -> - n <= cidx < 0 ->
  CoordinateTosRowColAdapter.convert_state_to_agent_format
    (CoordinateTosRowColAdapter.init room_size num_rooms) (ridx, cidx)
  = Ok (one_hot (Z.to_nat n) (Z.to_nat (n + ridx))
        ++ one_hot (Z.to_nat n) (Z.to_nat (n + cidx))).
Proof.
  intros n Hr Hc.
  unfold CoordinateTosRowColAdapter.convert_state_to_agent_format,
    CoordinateTosRowColAdapter.init,
    CoordinateTosRowColAdapter.room_size,
    CoordinateTosRowColAdapter.num_rooms.
  fold n. rewrite np_zeros_pos by lia. cbn [rbind].
  rewrite !one_hot_at, !np_index_from_end by lia. cbn [rbind].
  rewrite !(set_nth_repeat_one_hot _ _ 0) by lia. reflexivity.
Qed.

Lemma multi_room_encoder_negative_wraps_witness :
  CoordinateTosRowColAdapter.convert_state_to_agent_format
    (CoordinateTosRowColAdapter.init 3 2) (-1, -6)
  = Ok [0; 0; 0; 0; 0; 1; 1; 0; 0; 0; 0; 0]%Q.
Proof.
  rewrite (multi_room_encoder_negative_wraps 3 2 (-1) (-6)) by lia.
  reflexivity.
Defined.

(** The multi-room encoder raises [IndexError] as soon as one coordinate
    lies outside [- n, n) for [n = room_size * num_rooms >= 0], and
    [ValueError] for a negative [n]. *)
Theorem multi_room_encoder_rejects_outside
    (room_size num_rooms ridx cidx : Z) :
  let n := room_size * num_rooms in
  let r := CoordinateTosRowColAdapter.convert_state_to_agent_format
             (CoordinateTosRowColAdapter.init room_size num_rooms)
             (ridx, cidx) in
  (0 <= n ->
   (ridx < - n \/ n <= ridx) \/ (cidx < - n \/ n <= cidx) ->
   r = Raise IndexError)
  /\ (n < 0 -> r = Raise ValueError).
Proof.
  intros n r. unfold r,
    CoordinateTosRowColAdapter.convert_state_to_agent_format,
    CoordinateTosRowColAdapter.init,
    CoordinateTosRowColAdapter.room_size,
    CoordinateTosRowColAdapter.num_rooms.
  fold n. split.
  - intros Hn H. rewrite np_zeros_pos by lia. cbn [rbind].
    rewrite !one_hot_at by lia.
    destruct (np_index n ridx) as [k|e] eqn:Hk.
    + cbn [rbind]. destruct H as [H|H].
      * rewrite np_index_out_of_range in Hk by exact H. discriminate.
      * rewrite np_index_out_of_range by exact H. reflexivity.
    + unfold np_index in Hk.
      destruct ((0 <=? ridx) && (ridx <? n)); [discriminate|].
      destruct ((- n <=? ridx) && (ridx <? 0)); [discriminate|].
      inversion Hk. reflexivity.
  - intros Hn. unfold np_zeros.
    destruct (Z.ltb_spec n 0); [reflexivity|lia].
Qed.

Lemma multi_room_encoder_rejects_outside_witness :
  CoordinateTosRowColAdapter.convert_state_to_agent_format
    (CoordinateTosRowColAdapter.init 3 2) (6, 0)
  = Raise IndexError.
Proof.
  apply (multi_room_encoder_rejects_outside 3 2 6 0); lia.
Defined.

(** The single-room encoder cannot tell rooms apart: moving a state by
    whole rooms in either direction leaves its encoding unchanged. *)
Theorem single_room_encoder_is_periodic (room_size ridx cidx a b : Z) :
  0 < room_size ->
  CoordinatesToSingleRoomRowColAdapter.convert_state_to_agent_format
    (CoordinatesToSingleRoomRowColAdapter.init room_size)
    (ridx + a * room_size, cidx + b * room_size)
  = CoordinatesToSingleRoomRowColAdapter.convert_state_to_agent_format
      (CoordinatesToSingleRoomRowColAdapter.init room_size) (ridx, cidx).
Proof.
  intros H.
  assert (forall x k, py_mod (x + k * room_size) room_size
                      = py_mod x room_size) as Hmod.
  { intros x k. unfold py_mod. rewrite Z.mod_add by lia. reflexivity. }
  unfold CoordinatesToSingleRoomRowColAdapter.convert_state_to_agent_format.
  rewrite !Hmod. reflexivity.
Qed.

Lemma single_room_encoder_is_periodic_witness :
  CoordinatesToSingleRoomRowColAdapter.convert_state_to_agent_format
    (CoordinatesToSingleRoomRowColAdapter.init 3) (4, -2)
  = CoordinatesToSingleRoomRowColAdapter.convert_state_to_agent_format
      (CoordinatesToSingleRoomRowColAdapter.init 3) (1, 1).
Proof.
  apply (single_room_encoder_is_periodic 3 1 1 1 (-1)). lia.
Defined.

(** The single-room encoder never returns for a room size that is not
    positive: the modulus raises [ZeroDivisionError] for 0 and
    [np.zeros] raises [ValueError] for a negative size. *)
Theorem single_room_encoder_needs_positive_size
    (room_size ridx cidx : Z) :
  let r := CoordinatesToSingleRoomRowColAdapter.convert_state_to_agent_format
             (CoordinatesToSingleRoomRowColAdapter.init room_size)
             (ridx, cidx) in
  (room_size = 0 -> r = Raise ZeroDivisionError)
  /\ (room_size < 0 -> r = Raise ValueError).
Proof.
  cbv zeta. split.
  - intros ->. reflexivity.
  - intros H.
    unfold CoordinatesToSingleRoomRowColAdapter.convert_state_to_agent_format,
      CoordinatesToSingleRoomRowColAdapter.init,
      CoordinatesToSingleRoomRowColAdapter.room_size, np_zeros.
    destruct (Z.ltb_spec room_size 0); [reflexivity|lia].
Qed.

Lemma single_room_encoder_needs_positive_size_witness :
  CoordinatesToSingleRoomRowColAdapter.convert_state_to_agent_format
    (CoordinatesToSingleRoomRowColAdapter.init 0) (4, 4)
  = Raise ZeroDivisionError
  /\ CoordinatesToSingleRoomRowColAdapter.convert_state_to_agent_format
       (CoordinatesToSingleRoomRowColAdapter.init (-3)) (4, 4)
     = Raise ValueError.
Proof.
  split.
  - apply (single_room_encoder_needs_positive_size 0 4 4). reflexivity.
  - apply (single_room_encoder_needs_positive_size (-3) 4 4). lia.
Defined.

(* ================================================================== *)
(** * More on the loss                                                 *)
(* ================================================================== *)

Local Open Scope Q_scope.

Lemma row_loss_small (d : Q) :
  Qabs d <= 1 -> row_loss d == (1 # 2) * (Qabs d * Qabs d).
Proof.
  intros H. unfold row_loss. cbv zeta.
  rewrite (Q.min_l _ _ H). simpl. ring.
Qed.

Lemma row_loss_nonneg (d : Q) : 0 <= row_loss d.
Proof.
  pose proof (Qabs_nonneg d) as Hd.
  destruct (Qlt_le_dec (Qabs d) 1) as [Hs|Hl].
  - rewrite row_loss_small by lra.
    pose proof (Qmult_le_0_compat _ _ Hd Hd). lra.
  - rewrite row_loss_linear by exact Hl. lra.
Qed.

Lemma T_sum_nonneg (l : list Q) :
  Forall (fun x => 0 <= x) l -> 0 <= T_sum l.
Proof.
  induction 1 as [|x l Hx _ IH]; simpl; [apply Qle_refl|].
  change (0 <= x + T_sum l). lra.
Qed.

Lemma T_mean_nonneg (l : list Q) :
  Forall (fun x => 0 <= x) l -> 0 <= T_mean l.
Proof.
  intros H. unfold T_mean, Qdiv.
  apply Qmult_le_0_compat; [now apply T_sum_nonneg|].
  apply Qinv_le_0_compat. unfold zlength.
  change 0 with (inject_Z 0). rewrite <- Zle_Qle. lia.
Qed.

Lemma l2_nonneg (p : Array) : 0 <= l2 p.
Proof.
  unfold l2. apply T_sum_nonneg. apply Forall_forall.
  intros y Hy. apply in_map_iff in Hy. destruct Hy as (x & <- & _).
  simpl. destruct (Qlt_le_dec x 0) as [Hn|Hp].
  - setoid_replace (x * x) with ((- x) * (- x)) by ring.
    apply Qmult_le_0_compat; lra.
  - now apply Qmult_le_0_compat.
Qed.

Lemma Qabs_square (d : Q) : Qabs d * Qabs d == d * d.
Proof.
  rewrite <- Qabs_Qmult. apply Qabs_pos.
  destruct (Qlt_le_dec d 0) as [Hn|Hp].
  - setoid_replace (d * d) with ((- d) * (- d)) by ring.
    apply Qmult_le_0_compat; lra.
  - now apply Qmult_le_0_compat.
Qed.

(** The loss of one row is never negative, it is zero for an error of
    zero, and the clipping never makes it larger than the plain
    quadratic loss [0.5 * d^2]. *)
Theorem row_loss_is_below_the_quadratic (d : Q) :
  0 <= row_loss d
  /\ row_loss d <= (1 # 2) * (d * d)
  /\ (d == 0 -> row_loss d == 0).
Proof.
  pose proof (Qabs_nonneg d) as Hd. pose proof (Qabs_square d) as Hsq.
  split; [apply row_loss_nonneg|]. split.
  - destruct (Qlt_le_dec (Qabs d) 1) as [Hs|Hl].
    + rewrite row_loss_small by lra. lra.
    + rewrite row_loss_linear by exact Hl.
      assert (0 <= (Qabs d - 1) * (Qabs d - 1)) as Hq
        by (apply Qmult_le_0_compat; lra).
      setoid_replace ((Qabs d - 1) * (Qabs d - 1))
        with (Qabs d * Qabs d - 2 * Qabs d + 1) in Hq by ring.
      lra.
  - intros H. rewrite row_loss_small.
    + assert (Qabs d == 0) as -> by (rewrite H; reflexivity). ring.
    + rewrite H. discriminate.
Qed.

(** The loss of one row depends on the size of the error only, not on
    its sign. *)
Theorem row_loss_is_even (d : Q) : row_loss (- d) == row_loss d.
Proof.
  pose proof (Qabs_opp d) as Ho.
  destruct (Qlt_le_dec (Qabs d) 1) as [Hs|Hl].
  - rewrite !row_loss_small by lra. rewrite Ho. reflexivity.
  - rewrite !row_loss_linear by lra. rewrite Ho. reflexivity.
Qed.

(** A larger error never gives a smaller row loss, and the row loss lies
    between [|d| - 1/2] and [|d|]: beyond the clipping point it grows
    with slope one. *)
Theorem row_loss_grows_with_the_error (a b : Q) :
  Qabs a <= Qabs b ->
  row_loss a <= row_loss b
  /\ Qabs b - (1 # 2) <= row_loss b <= Qabs b.
Proof.
  intros H.
  pose proof (Qabs_nonneg a) as Ha. pose proof (Qabs_nonneg b) as Hb.
  assert (forall x, 0 <= x -> x <= 1 -> x * x <= x) as Hsq.
  { intros x H0 H1.
    setoid_replace x with (x * 1) at 3 by ring.
    apply Qmult_le_l_weak || (apply Qmult_le_compat_nonneg; split; lra). }
  assert (forall x y, 0 <= x -> x <= y -> x * x <= y * y) as Hmono.
  { intros x y H0 H1. apply Qmult_le_compat_nonneg; split; lra. }
  assert (forall x, 0 <= (x - 1) * (x - 1)) as Hsqr.
  { intros x. destruct (Qlt_le_dec (x - 1) 0).
    - setoid_replace ((x - 1) * (x - 1)) with ((1 - x) * (1 - x)) by ring.
      apply Qmult_le_0_compat; lra.
    - now apply Qmult_le_0_compat. }
  destruct (Qlt_le_dec (Qabs b) 1) as [Hs|Hl].
  - rewrite !row_loss_small by lra.
    pose proof (Hmono _ _ Ha H). pose proof (Hsq _ Hb (Qlt_le_weak _ _ Hs)).
    pose proof (Hsqr (Qabs b)) as Hq.
    pose proof (Qmult_le_0_compat _ _ Hb Hb).
    setoid_replace ((Qabs b - 1) * (Qabs b - 1))
      with (Qabs b * Qabs b - 2 * Qabs b + 1) in Hq by ring.
    repeat split; lra.
  - rewrite (row_loss_linear b) by exact Hl.
    destruct (Qlt_le_dec (Qabs a) 1) as [Has|Hal].
    + rewrite row_loss_small by lra.
      pose proof (Hsq _ Ha (Qlt_le_weak _ _ Has)). repeat split; lra.
    + rewrite row_loss_linear by exact Hal. repeat split; lra.
Qed.

Lemma row_loss_grows_with_the_error_witness :
  row_loss (1 # 2) <= row_loss (-3)
  /\ Qabs (-3) - (1 # 2) <= row_loss (-3) <= Qabs (-3).
Proof.
  apply (row_loss_grows_with_the_error (1 # 2) (-3)). discriminate.
Defined.

(** On a batch with at least one row the dense estimator's data term
    [T.sum] is the number of rows times the convolutional estimator's
    [T.mean]. *)
Theorem dense_data_term_is_rows_times_conv (rows : list Q) :
  rows <> [] ->
  aggregate QNetworkClass rows
  == inject_Z (zlength rows) * aggregate ConvQNetworkClass rows.
Proof.
  intros H. unfold aggregate, T_mean.
  rewrite Qmult_div_r; [reflexivity|].
  unfold zlength. destruct rows as [|x rows]; [congruence|].
  intros Hc. unfold Qeq, inject_Z in Hc. cbn [Qnum Qden] in Hc.
  rewrite length_cons in Hc. lia.
Qed.

Lemma dense_data_term_is_rows_times_conv_witness :
  aggregate QNetworkClass [1 # 2; 3; 1 # 8]
  == inject_Z 3 * aggregate ConvQNetworkClass [1 # 2; 3; 1 # 8].
Proof.
  apply (dense_data_term_is_rows_times_conv [1 # 2; 3; 1 # 8]).
  discriminate.
Defined.

Local Close Scope Q_scope.

Lemma bootstrap_target_lengths (discount : Q) (rewards : list Q)
    (terminals : list Z) (next_q_vals : list (list Q)) (tgt : list Q) :
  bootstrap_target discount rewards terminals next_q_vals = Ok tgt ->
  List.length rewards = List.length tgt
  /\ List.length terminals = List.length tgt
  /\ List.length next_q_vals = List.length tgt.
Proof.
  unfold bootstrap_target. intros H.
  destruct (mapM T_max next_q_vals) as [maxes|] eqn:Hm; [|discriminate].
  cbn [rbind] in H.
  destruct (elemwise Qmult _ maxes) as [future|] eqn:Hf; [|discriminate].
  cbn [rbind] in H.
  apply elemwise_length in H. destruct H as [H1 H2].
  apply elemwise_length in Hf. destruct Hf as [H3 H4].
  apply mapM_length in Hm. rewrite !length_map in H3.
  repeat split; congruence.
Qed.

Lemma py_range_length (n : Z) : List.length (py_range n) = Z.to_nat n.
Proof. unfold py_range. now rewrite length_map, length_seq. Qed.

Lemma td_error_lengths (batch_size : Z) (tgt : list Q)
    (q_vals : list (list Q)) (actions : list Z) (diff : list Q) :
  td_error batch_size tgt q_vals actions = Ok diff ->
  List.length actions = Z.to_nat batch_size ->
  List.length tgt = Z.to_nat batch_size
  /\ List.length diff = Z.to_nat batch_size
  /\ (Z.to_nat batch_size <= List.length q_vals)%nat.
Proof.
  unfold td_error, advanced_index, broadcast_index. intros H Ha.
  rewrite py_range_length, Ha, Nat.eqb_refl in H. cbn [rbind] in H.
  destruct (mapM _ (combine (py_range batch_size) actions))
    as [taken|] eqn:Hm; [|discriminate].
  cbn [rbind] in H. apply elemwise_length in H. destruct H as [H1 H2].
  pose proof (mapM_length _ _ _ Hm) as Hl.
  rewrite length_combine, py_range_length, Ha, Nat.min_id in Hl.
  split; [congruence|]. split; [congruence|].
  destruct (Z.to_nat batch_size) as [|k] eqn:Hk; [lia|].
  destruct (nth_error_lt_some actions k) as [a Hak]; [lia|].
  pose proof (nth_error_py_range batch_size k) as Hr.
  rewrite Hk in Hr. specialize (Hr (Nat.lt_succ_diag_r k)).
  destruct (mapM_nth _ _ _ k _ Hm (nth_error_combine _ _ _ _ _ Hr Hak))
    as (b & Hb & _).
  cbn [fst snd] in Hb.
  destruct (np_get q_vals (Z.of_nat k)) as [row|] eqn:Hq; [|discriminate].
  apply np_get_nat, nth_error_some_lt in Hq. lia.
Qed.

Section LossFacts.

Variable E : Engine.

(** Whenever the loss graph evaluates with a regularization coefficient
    that is not negative, the loss is not negative, for the dense and for
    the convolutional estimator. *)
Theorem loss_is_not_negative (s : Estimator E) (params : list Array)
    (g : LossGraph) :
  formulate_loss E s params = Ok g ->
  (0 <= regularization (config s))%Q ->
  (0 <= g_loss g)%Q.
Proof.
  intros H Hr.
  destruct (formulate_loss_inv E s params g H)
    as (_ & _ & _ & _ & Hrows & ->).
  assert (Forall (fun x => 0 <= x)%Q (g_rows g)) as Hpos.
  { rewrite Hrows. apply Forall_forall. intros y Hy.
    apply in_map_iff in Hy. destruct Hy as (x & <- & _).
    apply row_loss_nonneg. }
  assert (0 <= aggregate (cls (config s)) (g_rows g))%Q as Hagg.
  { destruct (cls (config s)); cbn [aggregate];
      [now apply T_sum_nonneg | now apply T_mean_nonneg]. }
  assert (0 <= regularize_network_params (l_out s) params)%Q as Hreg.
  { unfold regularize_network_params. apply T_sum_nonneg.
    apply Forall_forall. intros y Hy.
    apply in_map_iff in Hy. destruct Hy as (x & <- & _). apply l2_nonneg. }
  pose proof (Qmult_le_0_compat _ _ Hr Hreg). lra.
Qed.

(** Whenever the loss graph evaluates on an actions column of
    [batch_size] entries, the rewards, the terminal flags and the values
    of the next states have exactly [batch_size] rows and there is one
    row loss per transition; of the values of the states only the first
    [batch_size] rows are required to exist. *)
Theorem loss_evaluation_fixes_batch_lengths (s : Estimator E)
    (params : list Array) (g : LossGraph) :
  formulate_loss E s params = Ok g ->
  List.length (actions_shared (buffers s))
  = Z.to_nat (batch_size (config s)) ->
  List.length (rewards_shared (buffers s)) = Z.to_nat (batch_size (config s))
  /\ List.length (terminals_shared (buffers s))
     = Z.to_nat (batch_size (config s))
  /\ List.length (g_next_q_vals g) = Z.to_nat (batch_size (config s))
  /\ List.length (g_rows g) = Z.to_nat (batch_size (config s))
  /\ (Z.to_nat (batch_size (config s)) <= List.length (g_q_vals g))%nat.
Proof.
  intros H Ha.
  destruct (formulate_loss_inv E s params g H)
    as (_ & _ & Ht & Hd & Hrows & _).
  destruct (bootstrap_target_lengths _ _ _ _ _ Ht) as (H1 & H2 & H3).
  destruct (td_error_lengths _ _ _ _ _ Hd Ha) as (H4 & H5 & H6).
  rewrite Hrows, length_map.
  repeat split; try congruence; exact H6.
Qed.

End LossFacts.

Lemma loss_is_not_negative_witness :
  exists g,
    formulate_loss Ref.engine Example.bound_conv_network
      (live Example.bound_conv_network) = Ok g
    /\ (0 <= g_loss g)%Q.
Proof.
  destruct (formulate_loss Ref.engine Example.bound_conv_network
              (live Example.bound_conv_network)) as [g|e] eqn:Hg;
    [|vm_compute in Hg; discriminate].
  exists g. split; [reflexivity|].
  apply (loss_is_not_negative Ref.engine Example.bound_conv_network
           (live Example.bound_conv_network) g Hg).
  vm_compute. discriminate.
Defined.

Lemma loss_evaluation_fixes_batch_lengths_witness :
  exists g,
    formulate_loss Ref.engine Example.bound_network
      (live Example.bound_network) = Ok g
    /\ List.length (g_rows g) = 2%nat
    /\ List.length (g_next_q_vals g) = 2%nat.
Proof.
  destruct (formulate_loss Ref.engine Example.bound_network
              (live Example.bound_network)) as [g|e] eqn:Hg;
    [|vm_compute in Hg; discriminate].
  exists g. split; [reflexivity|].
  destruct (loss_evaluation_fixes_batch_lengths Ref.engine
              Example.bound_network (live Example.bound_network) g Hg)
    as (_ & _ & H3 & H4 & _); [reflexivity|].
  split; [exact H4 | exact H3].
Defined.

(* ================================================================== *)
(** * More on the methods of the estimators                            *)
(* ================================================================== *)

Lemma np_zeros_batch_dense (bs d : Z) :
  0 <= bs -> 0 <= d ->
  np_zeros_batch [bs; d]
  = Ok (repeat (repeat 0%Q (Z.to_nat d)) (Z.to_nat bs)).
Proof.
  intros Hb Hd. unfold np_zeros_batch. cbn [existsb].
  destruct (Z.ltb_spec bs 0); [lia|]. destruct (Z.ltb_spec d 0); [lia|].
  cbn [orb hd tl prod_shape fold_right]. now rewrite Z.mul_1_r.
Qed.

Section MethodFacts.

Variable E : Engine.

(** With [freeze_interval = 0] every call of [train] raises
    [ZeroDivisionError] at its first statement and nothing of the
    estimator has changed: no sync, no count, no buffer, no update. *)
Theorem train_with_zero_freeze_interval_changes_nothing (b : Batch)
    (s : Estimator E) :
  freeze_interval (config s) = 0 ->
  train_batch E b s = (Raise ZeroDivisionError, s).
Proof.
  intros H. rewrite train_spec. unfold py_mod. rewrite H. reflexivity.
Qed.

(** The result of [get_q_values] does not depend on what the buffers
    held: not on the state of an earlier [get_q_values] call, and not on
    a batch that [train] had bound. *)
Theorem get_q_values_forgets_earlier_inputs (a state : list Q)
    (bufs : Buffers) (s : Estimator E) :
  fst (get_q_values E state (snd (get_q_values E a s)))
  = fst (get_q_values E state s)
  /\ fst (get_q_values E state (set_buffers bufs s))
     = fst (get_q_values E state s).
Proof.
  assert (forall s' : Estimator E,
            config s' = config s -> l_out s' = l_out s ->
            live s' = live s ->
            fst (get_q_values E state s') = fst (get_q_values E state s))
    as Hdep.
  { intros s' Hc Hl Hv. rewrite !get_q_values_spec, Hc, Hl, Hv.
    destruct (np_zeros_batch _) as [zeros|e]; [|reflexivity].
    destruct (np_set_row0 _ zeros _) as [states|e]; [|reflexivity].
    cbv zeta. destruct (get_output E _ _ states); reflexivity. }
  split; [|apply Hdep; reflexivity].
  apply Hdep; rewrite get_q_values_spec;
    destruct (np_zeros_batch _) as [zeros|e]; try reflexivity;
    destruct (np_set_row0 _ zeros _) as [states|e]; try reflexivity;
    cbv zeta; destruct (get_output E _ _ states); reflexivity.
Qed.

(** [QNetwork.get_q_values] compares the length of the state with the
    input dimension only through numpy's assignment [states[0] = state]:
    a state of another length raises [ValueError] before anything is
    changed, except a state of one number, which is spread over the
    whole row. *)
Theorem get_q_values_checks_state_length (state : list Q) (d : Z)
    (s : Estimator E) :
  cls (config s) = QNetworkClass ->
  input_shape (config s) = [d] ->
  0 < batch_size (config s) -> 0 <= d ->
  List.length state <> Z.to_nat d ->
  match state with
  | [x] =>
      states_shared (buffers (snd (get_q_values E state s)))
      = repeat x (Z.to_nat d)
        :: repeat (repeat 0%Q (Z.to_nat d))
             (Z.to_nat (batch_size (config s)) - 1)
  | _ => get_q_values E state s = (Raise ValueError, s)
  end.
Proof.
  intros Hc Hi Hb Hd Hl.
  rewrite get_q_values_spec. unfold states_shape. rewrite Hc, Hi.
  rewrite np_zeros_batch_dense by lia.
  destruct (Z.to_nat (batch_size (config s))) as [|k] eqn:Hk; [lia|].
  cbn [repeat np_set_row0 tl]. rewrite np_broadcast_to_vector by lia.
  destruct (Nat.eqb_spec (List.length state) (Z.to_nat d)) as [Heq|_];
    [contradiction|].
  destruct state as [|x [|y state]]; try reflexivity.
  cbn [rbind]. cbv zeta. rewrite Nat.sub_succ, Nat.sub_0_r.
  destruct (get_output E _ _ _); reflexivity.
Qed.

(** [reset_target_network] on Parameter Sets of the same shapes copies
    the live values into the target, leaves the live values alone, and
    calling it a second time changes nothing more. *)
Theorem reset_target_network_is_idempotent (s : Estimator E) :
  same_shapes (target s) (live s) ->
  target (snd (reset_target_network E s)) = live s
  /\ live (snd (reset_target_network E s)) = live s
  /\ reset_target_network E (snd (reset_target_network E s))
     = reset_target_network E s.
Proof.
  intros H. rewrite (reset_target_network_same_shapes E s H).
  cbn [snd]. split; [reflexivity|]. split; [reflexivity|].
  rewrite reset_target_network_same_shapes by reflexivity. reflexivity.
Qed.

(** [QNetwork.set_params] with arrays of the shapes of the live
    parameters installs them in both networks and resets nothing else:
    the update counter, the accumulators of the update rule and the
    buffers stay as they were, and [get_params] then returns the arrays
    that were set. *)
Theorem set_params_keeps_training_progress (params : list Array)
    (s : Estimator E) :
  same_shapes (live s) params ->
  same_shapes (target s) (live s) ->
  let s' := snd (set_params E params s) in
  fst (set_params E params s) = Ok tt
  /\ fst (get_params E s') = Ok params
  /\ target s' = params
  /\ update_counter s' = update_counter s
  /\ opt_state s' = opt_state s
  /\ buffers s' = buffers s.
Proof.
  intros Hp Hs. cbv zeta.
  rewrite set_params_spec, (set_all_param_values_same_shapes _ _ Hp).
  rewrite reset_target_network_same_shapes.
  - cbn. repeat split.
  - cbn. unfold same_shapes in *. congruence.
Qed.

(** [ConvQNetwork] defines no [finish_episode]: the call that returns
    without effect on a [QNetwork] raises [AttributeError] on a
    [ConvQNetwork]. *)
Theorem finish_episode_only_on_dense (s : Estimator E) :
  call E "finish_episode" (finish_episode E) s
  = match cls (config s) with
    | QNetworkClass => (Ok tt, s)
    | ConvQNetworkClass => (Raise AttributeError, s)
    end.
Proof.
  unfold call. destruct (cls (config s)); reflexivity.
Qed.

End MethodFacts.

Lemma train_with_zero_freeze_interval_changes_nothing_witness :
  let s := Example.built
             (QNetwork_init Ref.engine 1 2 0 2 1 1 (1 # 10) 0 "sgd" 0 0)
             Example.network in
  train_batch Ref.engine Example.batch s = (Raise ZeroDivisionError, s).
Proof.
  cbv zeta.
  apply (train_with_zero_freeze_interval_changes_nothing Ref.engine).
  vm_compute. reflexivity.
Defined.

Lemma get_q_values_checks_state_length_witness :
  get_q_values Ref.engine [1%Q; 2%Q] Example.network
  = (Raise ValueError, Example.network).
Proof.
  apply (get_q_values_checks_state_length Ref.engine [1%Q; 2%Q] 1
           Example.network);
    [reflexivity | reflexivity | vm_compute; reflexivity
    | lia | vm_compute; discriminate].
Defined.

Lemma reset_target_network_is_idempotent_witness :
  reset_target_network Ref.engine
    (snd (reset_target_network Ref.engine Example.network))
  = reset_target_network Ref.engine Example.network.
Proof.
  apply (reset_target_network_is_idempotent Ref.engine Example.network).
  vm_compute. reflexivity.
Defined.

Lemma set_params_keeps_training_progress_witness :
  let p := map (fun a => {| shape := shape a;
                            data := map (Qplus 1) (data a) |})
               (live Example.network) in
  target (snd (set_params Ref.engine p Example.network)) = p
  /\ update_counter (snd (set_params Ref.engine p Example.network))
     = update_counter Example.network.
Proof.
  cbv zeta.
  destruct (set_params_keeps_training_progress Ref.engine
              (map (fun a => {| shape := shape a;
                                data := map (Qplus 1) (data a) |})
                   (live Example.network))
              Example.network) as (_ & _ & H1 & H2 & _);
    [vm_compute; reflexivity | vm_compute; reflexivity |].
  split; [exact H1 | exact H2].
Defined.

(* ================================================================== *)
(** * More on the builders                                             *)
(* ================================================================== *)

Section BuilderValues.

Variable E : Engine.

Lemma dense_layer_values (inc : Layer) (n : Z)
    (nl : option Nonlinearity) (b : Q) (r : Rng E) :
  exists W,
    fst (sample_all E
           (layer_params (DenseLayer inc n nl HeNormal (Constant b))) r)
    = [ {| shape := [prod_shape (tl (output_shape inc)); n]; data := W |};
        {| shape := [n]; data := repeat b (Z.to_nat n) |} ].
Proof.
  cbn [layer_params sample_all sample p_init p_shape].
  destruct (he_normal E r _) as [W r1]. exists W.
  cbn [fst prod_shape fold_right]. now rewrite Z.mul_1_r.
Qed.

Lemma hidden_loop_values (nh : Z) (l_in : Net) (idxs : list Z)
    (st : Net * Rng E) :
  idxs <> [] ->
  exists r',
    snd (fst (hidden_loop E nh l_in idxs st))
    = snd l_in
      ++ fst (sample_all E
                (layer_params
                   (DenseLayer (fst l_in) nh (Some leaky_rectify) HeNormal
                      (Constant (1 # 10)))) r').
Proof.
  revert st. induction idxs as [|i idxs IH]; intros st H; [congruence|].
  destruct idxs as [|j idxs].
  - exists (snd st). simpl. apply new_layer_values.
  - change (hidden_loop E nh l_in (i :: j :: idxs) st)
      with (hidden_loop E nh l_in (j :: idxs)
              (new_layer E l_in
                 (fun inc => DenseLayer inc nh (Some leaky_rectify)
                               HeNormal (Constant (1 # 10))) (snd st))).
    apply IH. discriminate.
Qed.

(** [QNetwork.build_network] with at least one hidden layer returns four
    arrays, whatever the count: a weight matrix [input_shape x
    num_hidden], a hidden bias of [num_hidden] entries all 0.1, a weight
    matrix [num_hidden x output_shape] and an output bias of
    [output_shape] zeros. *)
Theorem dense_network_initial_parameters
    (num_hidden_layers num_hidden input_shape output_shape batch_size : Z)
    (r : Rng E) :
  1 <= num_hidden_layers ->
  exists W_hid W_out,
    snd (fst (build_network E num_hidden_layers num_hidden input_shape
                output_shape batch_size r))
    = [ {| shape := [input_shape; num_hidden]; data := W_hid |};
        {| shape := [num_hidden];
           data := repeat (1 # 10)%Q (Z.to_nat num_hidden) |};
        {| shape := [num_hidden; output_shape]; data := W_out |};
        {| shape := [output_shape];
           data := repeat 0%Q (Z.to_nat output_shape) |} ].
Proof.
  intros Hn. unfold build_network. cbv zeta.
  match goal with
  | |- context [hidden_loop E ?nh ?li ?ix ?st] =>
      pose proof (hidden_loop_layer E nh li ix st
                    (py_range_nonempty _ Hn)) as HL;
      destruct (hidden_loop_values nh li ix st
                  (py_range_nonempty _ Hn)) as [r' HV];
      destruct (hidden_loop E nh li ix st) as [l_hid r1]
  end.
  cbn [fst snd] in HL, HV. cbv beta iota.
  rewrite new_layer_values, HV, HL.
  destruct (dense_layer_values (InputLayer [batch_size; input_shape])
              num_hidden (Some leaky_rectify) (1 # 10) r') as [Wh ->].
  destruct (dense_layer_values
              (DenseLayer (InputLayer [batch_size; input_shape]) num_hidden
                 (Some leaky_rectify) HeNormal (Constant (1 # 10)))
              output_shape None 0 r1) as [Wo ->].
  exists Wh, Wo.
  cbn. now rewrite !Z.mul_1_r.
Qed.

(** [QNetwork.build_network] with [num_hidden_layers <= 0] skips the
    loop: the output layer reads the input layer directly and the
    network is one linear map, [num_hidden] playing no part. *)
Theorem build_network_without_hidden_layers
    (num_hidden_layers num_hidden input_shape output_shape batch_size : Z)
    (r : Rng E) :
  num_hidden_layers <= 0 ->
  let net := fst (build_network E num_hidden_layers num_hidden input_shape
                    output_shape batch_size r) in
  fst net = DenseLayer (InputLayer [batch_size; input_shape]) output_shape
              None HeNormal (Constant 0)
  /\ exists W_out,
       snd net
       = [ {| shape := [input_shape; output_shape]; data := W_out |};
           {| shape := [output_shape];
              data := repeat 0%Q (Z.to_nat output_shape) |} ].
Proof.
  intros Hn. cbv zeta. unfold build_network, py_range.
  replace (Z.to_nat num_hidden_layers) with 0%nat by lia.
  cbn [seq map hidden_loop fold_left]. cbv zeta.
  rewrite new_layer_layer, new_layer_values. cbn [fst snd].
  split; [reflexivity|].
  destruct (dense_layer_values (InputLayer [batch_size; input_shape])
              output_shape None 0 r) as [Wo ->].
  exists Wo. cbn. now rewrite Z.mul_1_r.
Qed.

(** [ConvQNetwork.build_network]: one convolution of 1x1 filters over
    the single input channel, then the linear output layer on all of its
    [num_hidden * prod(input_shape)] outputs; the biases start at 0.1
    and at 0. *)
Theorem conv_network_initial_parameters (num_hidden : Z)
    (input_shape : list Z) (output_shape batch_size : Z) (r : Rng E) :
  let net := fst (conv_build_network E num_hidden input_shape output_shape
                    batch_size r) in
  let l_conv1 :=
    Conv2DLayer (InputLayer (batch_size :: 1 :: input_shape)) num_hidden
      (1, 1) 1 pad_same (Some leaky_rectify) HeNormal (Constant (1 # 10)) in
  fst net = DenseLayer l_conv1 output_shape None HeNormal (Constant 0)
  /\ exists W_conv W_out,
       snd net
       = [ {| shape := [num_hidden; 1; 1; 1]; data := W_conv |};
           {| shape := [num_hidden];
              data := repeat (1 # 10)%Q (Z.to_nat num_hidden) |};
           {| shape := [num_hidden * prod_shape input_shape; output_shape];
              data := W_out |};
           {| shape := [output_shape];
              data := repeat 0%Q (Z.to_nat output_shape) |} ].
Proof.
  cbv zeta. unfold conv_build_network. cbv zeta.
  match goal with
  | |- context [new_layer E ?a ?b r] =>
      pose proof (new_layer_layer E a b r) as HL;
      pose proof (new_layer_values E a b r) as HV;
      destruct (new_layer E a b r) as [l_conv1 r1]
  end.
  cbn [fst snd] in HL, HV. cbv beta iota.
  rewrite new_layer_layer, new_layer_values, HV, HL.
  split; [reflexivity|].
  destruct (dense_layer_values
              (Conv2DLayer (InputLayer (batch_size :: 1 :: input_shape))
                 num_hidden (1, 1) 1 pad_same (Some leaky_rectify) HeNormal
                 (Constant (1 # 10)))
              output_shape None 0 r1) as [Wo ->].
  cbn. destruct (he_normal E r _) as [Wc r2]. exists Wc, Wo. cbn.
  assert (map (fun d => (d + 1 - 1) / 1) input_shape = input_shape) as ->.
  { rewrite <- (map_id input_shape) at 2. apply map_ext.
    intros d. rewrite Z.div_1_r. lia. }
  now rewrite !Z.mul_1_r.
Qed.

End BuilderValues.

Lemma dense_network_initial_parameters_witness :
  nth_error (snd (fst (build_network Ref.engine 3 2 1 2 4 0))) 1
  = Some {| shape := [2]; data := [1 # 10; 1 # 10]%Q |}
  /\ List.length (snd (fst (build_network Ref.engine 3 2 1 2 4 0)))
     = 4%nat.
Proof.
  destruct (dense_network_initial_parameters Ref.engine 3 2 1 2 4 0)
    as (Wh & Wo & H); [lia|].
  rewrite H. split; reflexivity.
Defined.

Lemma build_network_without_hidden_layers_witness :
  fst (fst (build_network Ref.engine (-1) 5 1 2 4 0))
  = DenseLayer (InputLayer [4; 1]) 2 None HeNormal (Constant 0).
Proof.
  apply (build_network_without_hidden_layers Ref.engine (-1) 5 1 2 4 0).
  lia.
Defined.

(* ================================================================== *)
(** * More on construction                                             *)
(* ================================================================== *)

Section ConstructionSuccess.

Variable E : Engine.

(** A constructor call with a recognised update rule and a
    configuration whose networks can be built (positive batch size,
    input dimensions, [num_hidden] and [num_actions]; one input
    dimension for [QNetwork], two for [ConvQNetwork]) returns, and the
    estimator it hands over has [update_counter = 0], identical layer
    graphs for the two networks, target values equal to the live values,
    fresh accumulators, and zero-filled buffers of [batch_size] rows. *)
Theorem construction_gives_a_synchronised_estimator (c : Config)
    (r : Rng E) :
  recognised (update_rule c) = true ->
  constructible c ->
  exists e,
    fst (init_body E (blank E c r)) = Ok tt
    /\ finished E (snd (init_body E (blank E c r))) = Some e
    /\ config e = c
    /\ update_counter e = 0
    /\ target e = live e
    /\ next_l_out e = l_out e
    /\ opt_state e = opt_init E
    /\ rewards_shared (buffers e) = repeat 0%Q (Z.to_nat (batch_size c))
    /\ actions_shared (buffers e) = repeat 0 (Z.to_nat (batch_size c))
    /\ terminals_shared (buffers e) = repeat 0 (Z.to_nat (batch_size c))
    /\ states_shared (buffers e) = next_states_shared (buffers e)
    /\ states_shared (buffers e)
       = repeat (repeat 0%Q (Z.to_nat (prod_shape (tl (states_shape c)))))
           (Z.to_nat (batch_size c)).
Proof.
  intros Hr Hd.
  destruct (networks_built_and_synchronised E c r)
    as (l & values & nl & r' & _ & -> & _ & Hinit).
  cbv zeta in Hinit.
  rewrite (allocate_buffers_ok c (constructible_states_shape c Hd))
    in Hinit.
  cbv zeta in Hinit.
  destruct (initialize_updates_recognised E (update_rule c)
              (learning_rate c) Hr) as [u Hu].
  rewrite Hu in Hinit.
  unfold init_body, bind. rewrite Hinit.
  unfold assign_update_counter, modify, finished. cbn.
  eexists. split; [reflexivity|]. split; [reflexivity|].
  cbn. repeat split.
Qed.

End ConstructionSuccess.

Lemma construction_gives_a_synchronised_estimator_witness :
  exists e,
    finished Ref.engine (snd Example.conv_constructed) = Some e
    /\ update_counter e = 0
    /\ target e = live e.
Proof.
  destruct (construction_gives_a_synchronised_estimator Ref.engine
              {| cls := ConvQNetworkClass; input_shape := [1; 1];
                 batch_size := 2; num_hidden_layers := 0;
                 num_actions := 2; num_hidden := 1; discount := 1;
                 learning_rate := 1 # 10; regularization := 0;
                 update_rule := "sgd"; freeze_interval := 2 |} 0)
    as (e & _ & H1 & _ & H2 & H3 & _).
  - reflexivity.
  - unfold constructible. cbn.
    split; [lia|]. split; [repeat constructor|].
    split; [lia|]. split; [lia|reflexivity].
  - exists e. split; [exact H1|]. split; [exact H2 | exact H3].
Defined.

(* ================================================================== *)
(** * More on training and on the update rules                         *)
(* ================================================================== *)

Section TrainValue.

Variable E : Engine.

(** What [train] returns is the loss of the batch at the live parameters
    as they stood when the call began (with the target already
    synchronised on a sync call), provided the loss, its gradient and
    then the new values of the update rule can be computed; otherwise
    [train] raises what the loss raised, or else the [ValueError] of a
    gradient that is not [batch_size] long, or else what the update
    rule raised, and the live parameters and the accumulators are as
    before the call. *)
Theorem train_returns_the_loss_before_the_step (b : Batch)
    (s : Estimator E) :
  freeze_interval (config s) <> 0 ->
  same_shapes (target s) (live s) ->
  let sync := update_counter s mod freeze_interval (config s) =? 0 in
  let s1 := prepared b (if sync then set_target (live s) s else s) in
  let loss : Loss :=
    fun p => rbind (formulate_loss E s1 p) (fun g => Ok (g_loss g)) in
  let step := updates s loss (live s) (opt_state s) in
  let s' := snd (train_batch E b s) in
  fst (train_batch E b s)
  = rbind (formulate_loss E s1 (live s)) (fun g =>
      rbind (reshape_grad (batch_size (config s)) (g_diff g)) (fun _ =>
        rbind step (fun _ => Ok (g_loss g))))
  /\ (forall r, is_ok (fst (train_batch E b s)) = true -> step = Ok r ->
      live s' = fst r /\ opt_state s' = snd r)
  /\ (is_ok (fst (train_batch E b s)) = false ->
      live s' = live s /\ opt_state s' = opt_state s).
Proof.
  intros Hk Hsh. cbv zeta. rewrite train_spec. unfold py_mod.
  destruct (Z.eqb_spec (freeze_interval (config s)) 0); [contradiction|].
  destruct (update_counter s mod freeze_interval (config s) =? 0).
  - rewrite (reset_target_network_same_shapes E s Hsh), _train_spec.
    change (live (prepared b (set_target (live s) s))) with (live s).
    change (opt_state (prepared b (set_target (live s) s)))
      with (opt_state s).
    change (updates (prepared b (set_target (live s) s)))
      with (updates s).
    change (config (prepared b (set_target (live s) s)))
      with (config s).
    destruct (formulate_loss E _ (live s)) as [g|e]; cbn;
      [|split; [reflexivity|]; split; [discriminate|]; intros _;
        split; reflexivity].
    destruct (reshape_grad _ _); cbn;
      [|split; [reflexivity|]; split; [discriminate|]; intros _;
        split; reflexivity].
    match goal with
    | |- context [updates s ?l (live s) (opt_state s)] =>
        destruct (updates s l (live s) (opt_state s)) as [r|e]
    end; cbn.
    + split; [reflexivity|]. split; [|discriminate].
      intros r' _ Hr. inversion Hr; subst. split; reflexivity.
    + split; [reflexivity|]. split; [discriminate|]. intros _.
      split; reflexivity.
  - rewrite _train_spec.
    change (live (prepared b s)) with (live s).
    change (opt_state (prepared b s)) with (opt_state s).
    change (updates (prepared b s)) with (updates s).
    change (config (prepared b s)) with (config s).
    destruct (formulate_loss E _ (live s)) as [g|e]; cbn;
      [|split; [reflexivity|]; split; [discriminate|]; intros _;
        split; reflexivity].
    destruct (reshape_grad _ _); cbn;
      [|split; [reflexivity|]; split; [discriminate|]; intros _;
        split; reflexivity].
    match goal with
    | |- context [updates s ?l (live s) (opt_state s)] =>
        destruct (updates s l (live s) (opt_state s)) as [r|e]
    end; cbn.
    + split; [reflexivity|]. split; [|discriminate].
      intros r' _ Hr. inversion Hr; subst. split; reflexivity.
    + split; [reflexivity|]. split; [discriminate|]. intros _.
      split; reflexivity.
Qed.

(** [initialize_updates] returns for the three names ['adam'],
    ['rmsprop'] and ['sgd'], spelled exactly so, and for no other. *)
Theorem initialize_updates_accepts_three_rules (update_rule : string)
    (learning_rate : Q) :
  is_ok (initialize_updates E update_rule learning_rate) = true
  <-> update_rule = "adam"%string \/ update_rule = "rmsprop"%string
      \/ update_rule = "sgd"%string.
Proof.
  unfold initialize_updates.
  destruct (String.eqb_spec update_rule "adam") as [->|H1];
    [split; auto|].
  destruct (String.eqb_spec update_rule "rmsprop") as [->|H2];
    [split; auto|].
  destruct (String.eqb_spec update_rule "sgd") as [->|H3];
    [split; auto|].
  cbn. split; [discriminate|]. intros [H|[H|H]]; contradiction.
Qed.

End TrainValue.

Lemma train_returns_the_loss_before_the_step_witness :
  is_ok (fst (train_batch Ref.engine Example.batch Example.network)) = true
  /\ live (snd (train_batch Ref.engine Example.short_batch
                  Example.network))
     = live Example.network.
Proof.
  destruct (train_returns_the_loss_before_the_step Ref.engine
              Example.batch Example.network) as (H1 & _);
    [vm_compute; discriminate | vm_compute; reflexivity |].
  destruct (train_returns_the_loss_before_the_step Ref.engine
              Example.short_batch Example.network) as (_ & _ & H3);
    [vm_compute; discriminate | vm_compute; reflexivity |].
  split.
  - rewrite H1. vm_compute. reflexivity.
  - apply H3. vm_compute. reflexivity.
Defined.
